(** * dvo_core: the coarse-to-fine driver of DenseTracker::match

    A shallow embedding of [dvo_core/src/dense_tracking.cpp].  The driver
    (the level loop, the inner do-while loop, the acceptance test, the
    transactional pose values and the assembly of the Result) is written
    out; the numeric kernels it calls (Eigen, Sophus and the dvo::core SSE
    kernels, none of which is defined in this translation unit) are the
    fields of the class [Collaborators].  Doubles are the primitive
    binary64 floats of the kernel, so that comparisons against NaN and
    against [DBL_MAX] behave as they do in the program. *)

From Stdlib Require Import ZArith List Bool Lia.
From Stdlib Require Import Floats.
Import ListNotations.

Local Open Scope Z_scope.

(** ** Outcomes

    A C++ run either yields a value or leaves defined behaviour.  The
    driver can do the latter in two ways: by indexing a vector outside its
    range, and by branching on a field that nothing has written.  The third
    fault belongs to the model alone: the do-while loop is unrolled over a
    fuel counter, and [do_while_fuel] below shows that the fuel handed
    out by [run_level] is never spent. *)

Inductive fault : Type :=
| OutOfRange
| Indeterminate
| OutOfFuel.

Inductive outcome (A : Type) : Type :=
| Done (a : A)
| Fault (f : fault).

Arguments Done {A} a.
Arguments Fault {A} f.

Definition bind {A B : Type} (m : outcome A) (k : A -> outcome B) : outcome B :=
  match m with
  | Done a => k a
  | Fault f => Fault f
  end.

Notation "x <- m ;; k" := (bind m (fun x => k))
  (at level 61, m at next level, right associativity).

(** ** Doubles *)

(** [std::numeric_limits<double>::max()]. *)
Definition DBL_MAX : float := 0x1.fffffffffffffp+1023%float.

(** The constant 0.008 of line 446, as the double the literal denotes. *)
Definition information_scale : float := 0x1.0624dd2f1a9fcp-7%float.

(** ** dvo/util/revertable.h *)

(** Modelled from the spec: the header dvo/util/revertable.h is not among
    the sources.  The spec (4.4) describes a value with a committed and a
    staged slot: an update is staged, kept when the iteration is accepted
    and dropped by revert, which puts the pre-iteration value back.  match
    calls update(), revert() and the call operator only, and reads the
    staged value through the call operator right after update() (lines 264
    and 293).  So the slot that is read holds the staged value, the backup
    holds the committed one, and an update that is not reverted is thereby
    committed. *)
Record Revertable (T : Type) : Type := mkRevertable { old : T; value : T }.

Arguments mkRevertable {T} old value.
Arguments old {T} r.
Arguments value {T} r.

(** [r.update() = v]. *)
Definition update {T : Type} (r : Revertable T) (v : T) : Revertable T :=
  mkRevertable (value r) v.

(** [r.revert()]. *)
Definition revert {T : Type} (r : Revertable T) : Revertable T :=
  mkRevertable (old r) (old r).

(** ** Configuration and iteration context *)

(** The members of DenseTracker::Config that match reads. *)
Record Config : Type := mkConfig {
  FirstLevel : Z;
  LastLevel : Z;
  MaxIterationsPerLevel : Z;
  Precision : float;
  Mu : float;
  UseInitialEstimate : bool
}.

Record IterationContext : Type := mkIterationContext {
  Level : Z;
  Iteration : Z;
  Error : float;
  LastError : float
}.

(** Modelled from the spec: IterationContext's member functions are
    defined in another translation unit.  The first iteration on a level
    is the one that finds the counter at zero. *)
Definition IsFirstIterationOnLevel (c : IterationContext) : bool :=
  Iteration c =? 0.

(** Modelled from the spec: the budget is spent once
    [Iteration >= MaxIterationsPerLevel]. *)
Definition IterationsExceeded (cfg : Config) (c : IterationContext) : bool :=
  MaxIterationsPerLevel cfg <=? Iteration c.

(** struct TerminationCriteria { enum Enum { ... }; }: the three criteria
    match assigns. *)
Module TerminationCriteria.

Inductive Enum : Type :=
| IterationsExceeded
| IncrementTooSmall
| LogLikelihoodDecreased.

Definition eqb (a b : Enum) : bool :=
  match a, b with
  | IterationsExceeded, IterationsExceeded => true
  | IncrementTooSmall, IncrementTooSmall => true
  | LogLikelihoodDecreased, LogLikelihoodDecreased => true
  | _, _ => false
  end.

End TerminationCriteria.

(** ** Weight buffer *)

(** [std::fill(w.begin(), w.begin() + n, v)]: writing past the end of the
    vector is out of range. *)
Definition fill_n (w : list float) (n : nat) (v : float) : outcome (list float) :=
  if (n <=? length w)%nat then Done (repeat v n ++ skipn n w) else Fault OutOfRange.

(** [if (w.size() < n) w.resize(n)]: new elements are value-initialised. *)
Definition grow (w : list float) (n : nat) : list float :=
  if (length w <? n)%nat then w ++ repeat 0%float (n - length w) else w.

(** [size_t]: 64 bits, unsigned. *)
Definition size_t_max : Z := 2 ^ 64.

(** [v.size() - k] in [size_t]: the difference wraps around when [k]
    exceeds the size. *)
Definition size_minus {A : Type} (v : list A) (k : Z) : Z :=
  if k <=? Z.of_nat (length v)
  then Z.of_nat (length v) - k
  else Z.of_nat (length v) - k + size_t_max.

(** [v[i]]: an index at or beyond the size is out of range. *)
Definition at_index {A : Type} (v : list A) (i : Z) : outcome A :=
  if (0 <=? i) && (i <? Z.of_nat (length v))
  then match nth_error v (Z.to_nat i) with
       | Some a => Done a
       | None => Fault OutOfRange
       end
  else Fault OutOfRange.

(** [v.back()]. *)
Definition back {A : Type} (v : list A) : outcome A :=
  match rev v with
  | a :: _ => Done a
  | [] => Fault OutOfRange
  end.

(** [for (Level = first; Level >= last; --Level)]: the levels visited. *)
Fixpoint levels_from (first : Z) (count : nat) : list Z :=
  match count with
  | O => []
  | S k => first :: levels_from (first - 1) k
  end.

Definition levels (cfg : Config) : list Z :=
  levels_from (FirstLevel cfg) (Z.to_nat (FirstLevel cfg - LastLevel cfg + 1)).

(** ** Collaborators

    Everything match calls that is defined elsewhere: Eigen's fixed-size
    vectors and matrices, Sophus' SE3 group, the image pyramid, the point
    selection, the SSE kernels and the normal-equations accumulator. *)
Class Collaborators : Type := {
  (* Eigen and Sophus *)
  Affine3d : Type;
  Affine3f : Type;
  SE3d : Type;
  Vector6d : Type;
  Matrix6d : Type;
  Vector2f : Type;
  Matrix2f : Type;
  Vector8f : Type;
  Matrix2x6 : Type;
  Affine3d_Identity : Affine3d;
  (* SE3d(t.rotation(), t.translation()) *)
  SE3d_of_affine : Affine3d -> SE3d;
  (* SE3d() *)
  SE3d_default : SE3d;
  SE3d_exp : Vector6d -> SE3d;
  SE3d_log : SE3d -> Vector6d;
  SE3d_inverse : SE3d -> SE3d;
  SE3d_mul : SE3d -> SE3d -> SE3d;
  SE3d_matrix : SE3d -> Affine3d;
  (* .matrix().cast<float>() *)
  SE3d_matrix_float : SE3d -> Affine3f;
  (* x.lpNorm<Eigen::Infinity>() *)
  lpNorm_Infinity : Vector6d -> float;
  squaredNorm : Vector6d -> float;
  Vector6d_add : Vector6d -> Vector6d -> Vector6d;
  Vector6d_scale : float -> Vector6d -> Vector6d;
  Matrix6d_Identity : Matrix6d;
  Matrix6d_add : Matrix6d -> Matrix6d -> Matrix6d;
  Matrix6d_scale : float -> Matrix6d -> Matrix6d;
  (* A.ldlt().solve(b) *)
  ldlt_solve : Matrix6d -> Vector6d -> Vector6d;
  Vector2f_Zero : Vector2f;
  Matrix2f_Zero : Matrix2f;
  Matrix2f_inverse : Matrix2f -> Matrix2f;
  Matrix2f_scale : float -> Matrix2f -> Matrix2f;
  (* dvo::core *)
  RgbdImagePyramid : Type;
  RgbdImage : Type;
  IntrinsicMatrix : Type;
  PointSelection : Type;
  Point : Type;
  PointError : Type;
  Residual : Type;
  NormalEquationsLeastSquares : Type;
  (* current.level(l), after current.compute and buildAccelerationStructure *)
  level : RgbdImagePyramid -> Z -> RgbdImage;
  intrinsics : RgbdImage -> IntrinsicMatrix;
  getMaximumNumberOfPoints : PointSelection -> Z -> nat;
  (* reference.select(l, K, first_point, last_point) *)
  select : PointSelection -> Z -> IntrinsicMatrix -> list Point;
  (* the vectors wcur and wref of lines 216-221, functions of K alone *)
  current_weights : IntrinsicMatrix -> Vector8f;
  reference_weights : IntrinsicMatrix -> Vector8f;
  (* the ranges [first_point_error, last_point_error) and
     [first_residual, last_residual) *)
  computeResidualsSse :
    list Point -> RgbdImage -> IntrinsicMatrix -> Affine3f ->
    Vector8f -> Vector8f -> list PointError * list Residual;
  (* the buffer weights after the call; mean and precision are read only *)
  computeWeightsSse :
    list Residual -> list float -> Vector2f -> Matrix2f -> list float;
  computeScaleSse : list Residual -> list float -> Vector2f -> Matrix2f;
  computeCompleteDataLogLikelihood :
    list Residual -> list float -> Vector2f -> Matrix2f -> float;
  (* lines 406-410: the 2x6 Jacobian of one point, in single precision,
     built from computeJacobianOfProjectionAndTransformation and
     compute3rdRowOfJacobianOfTransformation *)
  jacobian : PointError -> Matrix2x6;
  getIntensityAndDepthVec2f : PointError -> Residual;
  (* ls.initialize(1), ls.update(J, r, w), ls.finish() *)
  ls_initialize : NormalEquationsLeastSquares;
  ls_update :
    NormalEquationsLeastSquares -> Matrix2x6 -> Residual -> Matrix2f ->
    NormalEquationsLeastSquares;
  ls_finish : NormalEquationsLeastSquares -> NormalEquationsLeastSquares;
  (* ls.A.cast<double>(), ls.b.cast<double>() *)
  ls_A : NormalEquationsLeastSquares -> Matrix6d;
  ls_b : NormalEquationsLeastSquares -> Vector6d
}.

Section Driver.

Context {C : Collaborators}.

(** ** Statistics and result *)

Record IterationStats : Type := mkIterationStats {
  Id : Z;
  ValidConstraints : nat;
  TDistributionLogLikelihood : float;
  TDistributionMean : Vector2f;
  TDistributionPrecision : Matrix2f;
  PriorLogLikelihood : float;
  (* written by accepted iterations only *)
  EstimateIncrement : option Vector6d;
  EstimateInformation : option Matrix6d
}.

Record LevelStats : Type := mkLevelStats {
  LevelId : Z;
  MaxValidPixels : nat;
  ValidPixels : nat;
  (* [None]: as LevelStats() left it *)
  TerminationCriterion : option TerminationCriteria.Enum;
  Iterations : list IterationStats
}.

Record Result : Type := mkResult {
  Transformation : Affine3d;
  (* [None]: computed from a matrix nothing has written *)
  Information : option Matrix6d;
  LogLikelihood : float;
  Levels : list LevelStats
}.

(** The members of the tracker that match reads and writes.  The buffers
    points_error and residuals are filled and read by the kernels alone and
    live behind [computeResidualsSse]. *)
Record DenseTracker : Type := mkDenseTracker {
  cfg : Config;
  itctx_ : IterationContext;
  weights : list float
}.

(** ** The inner loop *)

(** The variables alive inside the do-while loop of one level. *)
Record Loop : Type := mkLoop {
  ctx : IterationContext;
  wbuf : list float;
  inc : SE3d;
  initial : Revertable SE3d;
  estimate : Revertable SE3d;
  accept : bool;
  precision : Matrix2f;
  x : Vector6d;
  stats : list IterationStats
}.

(** What stays fixed while a level is processed. *)
Record LevelInput : Type := mkLevelInput {
  cur : RgbdImage;
  K : IntrinsicMatrix;
  points : list Point
}.

(** The outcome of the first half of the loop body, up to the acceptance
    test: the state with the staged poses and the new errors, the record
    of the iteration, and the point errors the linearisation reads. *)
Record Trial : Type := mkTrial {
  trial_state : Loop;
  trial_stats : IterationStats;
  trial_errors : list PointError
}.

(** Lines 250-385.  The vector mean is zeroed when the level starts and
    only read afterwards, so it is [Vector2f_Zero] throughout. *)
Definition evaluate (cfg : Config) (li : LevelInput) (s : Loop) : outcome Trial :=
  let inc' := SE3d_exp (x s) in
  let initial' := update (initial s) (SE3d_mul (SE3d_inverse inc') (value (initial s))) in
  let estimate' := update (estimate s) (SE3d_mul inc' (value (estimate s))) in
  let transformf := SE3d_matrix_float (value estimate') in
  let r := computeResidualsSse (points li) (cur li) (K li) transformf
             (reference_weights (K li)) (current_weights (K li)) in
  let residuals := snd r in
  let n := length residuals in
  w <- (if IsFirstIterationOnLevel (ctx s)
        then fill_n (wbuf s) n 1%float
        else Done (computeWeightsSse residuals (wbuf s) Vector2f_Zero (precision s))) ;;
  let precision' := Matrix2f_inverse (computeScaleSse residuals w Vector2f_Zero) in
  let ll := computeCompleteDataLogLikelihood residuals w Vector2f_Zero precision' in
  let total_error := (- ll)%float in
  let st := mkIterationStats (Iteration (ctx s)) n (- ll)%float Vector2f_Zero precision'
              (Mu cfg * squaredNorm (SE3d_log (value initial')))%float None None in
  let ctx' := mkIterationContext (Level (ctx s)) (Iteration (ctx s)) total_error (Error (ctx s)) in
  Done (mkTrial
          (mkLoop ctx' w inc' initial' estimate'
                  (Error ctx' <? LastError ctx')%float precision' (x s) (stats s))
          st (fst r)).

(** Lines 387-393: the staged poses are dropped and the loop is left. *)
Definition reject (t : Trial) : Loop :=
  let s := trial_state t in
  mkLoop (ctx s) (wbuf s) (inc s) (revert (initial s)) (revert (estimate s))
         (accept s) (precision s) (x s) (stats s ++ [trial_stats t]).

(** Lines 398-414: the normal equations, one update per point error.  The
    iterator over the weights advances with the one over the point errors;
    running off the end of the weights is out of range. *)
Fixpoint accumulate (ls : NormalEquationsLeastSquares) (es : list PointError)
    (w : list float) (p : Matrix2f) : outcome NormalEquationsLeastSquares :=
  match es with
  | [] => Done ls
  | e :: es' =>
      match w with
      | [] => Fault OutOfRange
      | wi :: w' =>
          accumulate
            (ls_update ls (jacobian e) (getIntensityAndDepthVec2f e) (Matrix2f_scale wi p))
            es' w' p
      end
  end.

(** Lines 403-417: the system handed to the solver. *)
Definition normal_equations (cfg : Config) (t : Trial) : outcome (Matrix6d * Vector6d) :=
  let s := trial_state t in
  ls <- accumulate ls_initialize (trial_errors t) (wbuf s) (precision s) ;;
  let ls' := ls_finish ls in
  Done (Matrix6d_add (ls_A ls') (Matrix6d_scale (Mu cfg) Matrix6d_Identity),
        Vector6d_add (ls_b ls') (Vector6d_scale (Mu cfg) (SE3d_log (value (initial s))))).

(** Lines 418-425: the system [ne] is solved, the record of the iteration
    is completed and the counter advances. *)
Definition solved (t : Trial) (ne : Matrix6d * Vector6d) : Loop :=
  let s := trial_state t in
  let x' := ldlt_solve (fst ne) (snd ne) in
  let st := trial_stats t in
  let st' := mkIterationStats (Id st) (ValidConstraints st) (TDistributionLogLikelihood st)
               (TDistributionMean st) (TDistributionPrecision st) (PriorLogLikelihood st)
               (Some x') (Some (fst ne)) in
  let c := ctx s in
  mkLoop (mkIterationContext (Level c) (Iteration c + 1) (Error c) (LastError c))
         (wbuf s) (inc s) (initial s) (estimate s) (accept s) (precision s) x'
         (stats s ++ [st']).

(** Lines 398-425. *)
Definition solve (cfg : Config) (t : Trial) : outcome Loop :=
  ne <- normal_equations cfg t ;;
  Done (solved t ne).

(** One pass through the body of the do-while loop. *)
Definition iteration (cfg : Config) (li : LevelInput) (s : Loop) : outcome Loop :=
  t <- evaluate cfg li s ;;
  if accept (trial_state t) then solve cfg t else Done (reject t).

(** The condition of line 428. *)
Definition continues (cfg : Config) (s : Loop) : bool :=
  accept s && (Precision cfg <? lpNorm_Infinity (x s))%float
           && negb (IterationsExceeded cfg (ctx s)).

(** Lines 248-428.  The break of line 392 leaves the loop without looking
    at the condition. *)
Fixpoint do_while (fuel : nat) (cfg : Config) (li : LevelInput) (s : Loop) : outcome Loop :=
  s' <- iteration cfg li s ;;
  if negb (accept s') then Done s'
  else if continues cfg s' then
    match fuel with
    | O => Fault OutOfFuel
    | S fuel' => do_while fuel' cfg li s'
    end
  else Done s'.

(** ** One level *)

(** What match carries from one level to the next. *)
Record Tracking : Type := mkTracking {
  t_ctx : IterationContext;
  t_wbuf : list float;
  t_inc : SE3d;
  t_initial : Revertable SE3d;
  t_estimate : Revertable SE3d;
  t_accept : bool;
  t_Levels : list LevelStats
}.

(** Lines 203-245: the state in which the do-while loop is entered. *)
Definition enter_level (lvl : Z) (t : Tracking) : Loop :=
  mkLoop (mkIterationContext lvl 0 DBL_MAX (LastError (t_ctx t)))
         (t_wbuf t) (t_inc t) (t_initial t) (t_estimate t) (t_accept t)
         Matrix2f_Zero (SE3d_log (t_inc t)) [].

(** Lines 430-437: three tests in a row, each overwriting the field. *)
Definition termination (cfg : Config) (s : Loop) : option TerminationCriteria.Enum :=
  let c0 := None in
  let c1 := if negb (accept s) then Some TerminationCriteria.LogLikelihoodDecreased else c0 in
  let c2 := if (lpNorm_Infinity (x s) <=? Precision cfg)%float
            then Some TerminationCriteria.IncrementTooSmall else c1 in
  if IterationsExceeded cfg (ctx s) then Some TerminationCriteria.IterationsExceeded else c2.

Definition level_input (reference : PointSelection) (current : RgbdImagePyramid)
    (lvl : Z) : LevelInput :=
  let c := level current lvl in
  mkLevelInput c (intrinsics c) (select reference lvl (intrinsics c)).

(** The fuel [run_level] gives the loop. *)
Definition level_fuel (cfg : Config) : nat := Z.to_nat (MaxIterationsPerLevel cfg).

(** The body of the level loop, lines 203-439.  level_stats is a reference
    to the last element of result.Statistics.Levels; nothing reads the
    vector while the level runs, so the record is appended once it is
    complete. *)
Definition run_level (cfg : Config) (reference : PointSelection)
    (current : RgbdImagePyramid) (lvl : Z) (t : Tracking) : outcome Tracking :=
  let li := level_input reference current lvl in
  s <- do_while (level_fuel cfg) cfg li (enter_level lvl t) ;;
  Done (mkTracking (ctx s) (wbuf s) (inc s) (initial s) (estimate s) (accept s)
          (t_Levels t ++
             [mkLevelStats lvl (getMaximumNumberOfPoints reference lvl)
                (length (points li)) (termination cfg s) (stats s)])).

Fixpoint run_levels (cfg : Config) (reference : PointSelection)
    (current : RgbdImagePyramid) (ls : list Z) (t : Tracking) : outcome Tracking :=
  match ls with
  | [] => Done t
  | l :: ls' =>
      t' <- run_level cfg reference current l t ;;
      run_levels cfg reference current ls' t'
  end.

(** ** match *)

(** Lines 142-166: the state in which the level loop is entered. *)
Definition start (d : DenseTracker) (reference : PointSelection) (result : Result)
    : Tracking :=
  let guess := if UseInitialEstimate (cfg d) then Transformation result
               else Affine3d_Identity in
  let inc0 := SE3d_of_affine guess in
  mkTracking (itctx_ d)
    (grow (weights d) (getMaximumNumberOfPoints reference (LastLevel (cfg d))))
    inc0 (mkRevertable SE3d_default inc0) (mkRevertable SE3d_default SE3d_default)
    true (Levels result).

(** Line 443.  The sizes are [size_t], so [size() - 2] of a one-element
    vector wraps around.  A level on which none of the three tests fired
    holds the criterion LevelStats() constructed; that constructor is not
    among the sources, so the branch taken there is not determined. *)
Definition last_iteration (l : LevelStats) : outcome IterationStats :=
  match TerminationCriterion l with
  | None => Fault Indeterminate
  | Some c =>
      if negb (TerminationCriteria.eqb c TerminationCriteria.LogLikelihoodDecreased)
      then at_index (Iterations l) (size_minus (Iterations l) 1)
      else at_index (Iterations l) (size_minus (Iterations l) 2)
  end.

(** Lines 442-447. *)
Definition finish (t : Tracking) : outcome Result :=
  l <- back (t_Levels t) ;;
  it <- last_iteration l ;;
  Done (mkResult
          (SE3d_matrix (SE3d_inverse (value (t_estimate t))))
          (option_map (fun A => Matrix6d_scale information_scale
                                  (Matrix6d_scale information_scale A))
                      (EstimateInformation it))
          (TDistributionLogLikelihood it + PriorLogLikelihood it)%float
          (t_Levels t)).

(** The value the loop variable itctx_.Level is left with: one below the
    last level visited, or FirstLevel when no level is visited. *)
Definition level_after (c : Config) : Z :=
  if LastLevel c <=? FirstLevel c then LastLevel c - 1 else FirstLevel c.

(** DenseTracker::match(PointSelection&, RgbdImagePyramid&, Result&),
    lines 136-450, with debug = false as line 170 fixes it.  The value is
    the flag returned, the Result and the tracker as the call leaves
    them. *)
Definition match_ (d : DenseTracker) (reference : PointSelection)
    (current : RgbdImagePyramid) (result : Result)
    : outcome (bool * Result * DenseTracker) :=
  let success := true in
  t <- run_levels (cfg d) reference current (levels (cfg d)) (start d reference result) ;;
  r <- finish t ;;
  let c := t_ctx t in
  Done (success, r,
        mkDenseTracker (cfg d)
          (mkIterationContext (level_after (cfg d)) (Iteration c) (Error c) (LastError c))
          (t_wbuf t)).

(** ** Notions the statements use *)

(** An iteration record belongs to an accepted iteration when the
    iteration went on to solve for the next increment. *)
Definition accepted (st : IterationStats) : bool :=
  match EstimateIncrement st with
  | Some _ => true
  | None => false
  end.

(** The errors recorded by the accepted iterations of a level, in order. *)
Definition accepted_errors (its : list IterationStats) : list float :=
  map TDistributionLogLikelihood (filter accepted its).

(** Each double is strictly below the one before it. *)
Fixpoint descending (l : list float) : Prop :=
  match l with
  | [] => True
  | a :: tl =>
      match tl with
      | [] => True
      | b :: _ => (b <? a)%float = true /\ descending tl
      end
  end.

(** The residuals the body computes in state [s]. *)
Definition residuals_at (li : LevelInput) (s : Loop) : list Residual :=
  snd (computeResidualsSse (points li) (cur li) (K li)
         (SE3d_matrix_float (SE3d_mul (SE3d_exp (x s)) (value (estimate s))))
         (reference_weights (K li)) (current_weights (K li))).


(** What an iteration leaves behind, by cases on the acceptance test. *)
Inductive iteration_result (cfg : Config) (li : LevelInput) (s : Loop) (s' : Loop) : Prop :=
| iteration_accepted (t : Trial) (ne : Matrix6d * Vector6d) :
    evaluate cfg li s = Done t ->
    accept (trial_state t) = true ->
    normal_equations cfg t = Done ne ->
    s' = solved t ne ->
    iteration_result cfg li s s'
| iteration_rejected (t : Trial) :
    evaluate cfg li s = Done t ->
    accept (trial_state t) = false ->
    s' = reject t ->
    iteration_result cfg li s s'.

(** The three conditions under which a level ends. *)
Definition rejected (s : Loop) : bool := negb (accept s).

Definition converged (cfg : Config) (s : Loop) : bool :=
  (lpNorm_Infinity (x s) <=? Precision cfg)%float.

Definition exhausted (cfg : Config) (s : Loop) : bool :=
  IterationsExceeded cfg (ctx s).

(** The reason the specification's order of priority picks:
    rejected-by-likelihood before increment-converged before
    iterations-exhausted. *)
Definition reason_by_priority (cfg : Config) (s : Loop) : option TerminationCriteria.Enum :=
  if rejected s then Some TerminationCriteria.LogLikelihoodDecreased
  else if converged cfg s then Some TerminationCriteria.IncrementTooSmall
  else if exhausted cfg s then Some TerminationCriteria.IterationsExceeded
  else None.

(** One run of the do-while loop, as a relation between the state in which
    the body is entered first and the state in which the loop is left. *)
Inductive loop_run (cfg : Config) (li : LevelInput) : Loop -> Loop -> Prop :=
| run_last s s' :
    iteration cfg li s = Done s' ->
    continues cfg s' = false ->
    loop_run cfg li s s'
| run_next s s1 s' :
    iteration cfg li s = Done s1 ->
    continues cfg s1 = true ->
    loop_run cfg li s1 s' ->
    loop_run cfg li s s'.

(** The errors of the accepted iterations so far descend from [DBL_MAX]
    and end in the running error. *)
Definition chained (s : Loop) : Prop :=
  descending (DBL_MAX :: accepted_errors (stats s)) /\
  last (DBL_MAX :: accepted_errors (stats s)) DBL_MAX = Error (ctx s).

(** The records of a level: accepted ones, then at most one rejected one,
    which is there exactly when the loop was left by the break. *)
Inductive level_records (cfg : Config) (s' : Loop) : Prop :=
| records_accepted :
    accept s' = true ->
    Forall (fun st => accepted st = true) (stats s') ->
    stats s' <> [] ->
    level_records cfg s'
| records_rejected (acc : list IterationStats) (r : IterationStats) :
    accept s' = false ->
    stats s' = acc ++ [r] ->
    Forall (fun st => accepted st = true) acc ->
    accepted r = false ->
    EstimateInformation r = None ->
    (acc <> [] -> termination cfg s' = Some TerminationCriteria.LogLikelihoodDecreased) ->
    level_records cfg s'.

End Driver.

(** ** Registration on a line

    The smallest world the driver can run in: the camera slides along one
    axis, a pose is the displacement (a double), an image is an intensity
    ramp of finite width, and a reference point carries its position, its
    intensity and its intensity derivative.  Every collaborator is the
    one-dimensional case of the real one, computed in doubles, so that the
    driver can be run on concrete frames. *)
Module Line.

Local Open Scope float_scope.

(** The intensity [slope * u + offset] on [0 <= u <= width]. *)
Record Scanline : Type := mkScanline { slope : float; offset : float; width : float }.

Record LinePoint : Type := mkLinePoint { position : float; intensity : float; derivative : float }.

Record LineError : Type := mkLineError { residual : float; gradient : float }.

(** A point that leaves the image, or whose image position is not a number,
    yields no residual. *)
Definition project (img : Scanline) (t : float) (p : LinePoint) : option LineError :=
  let u := position p + t in
  if (0 <=? u) && (u <=? width img)
  then Some (mkLineError (intensity p - (slope img * u + offset img)) (derivative p))
  else None.

Fixpoint residuals_of (img : Scanline) (t : float) (ps : list LinePoint) : list LineError :=
  match ps with
  | [] => []
  | p :: ps' =>
      match project img t p with
      | Some e => e :: residuals_of img t ps'
      | None => residuals_of img t ps'
      end
  end.

Definition sum (l : list float) : float := fold_left add l 0.

(** The unit influence function: every residual weighs one. *)
Definition unit_weights (rs : list float) (w : list float) : list float :=
  repeat 1 (length rs) ++ skipn (length rs) w.

Fixpoint weighted_squares (rs w : list float) : list float :=
  match rs, w with
  | r :: rs', wi :: w' => wi * r * r :: weighted_squares rs' w'
  | _, _ => []
  end.

(** Minus the mean weighted squared residual; not a number when there is
    no residual at all. *)
Definition log_likelihood (rs w : list float) : float :=
  - (sum (weighted_squares rs w) / sum (map (fun _ => 1) rs)).

Definition collaborators : Collaborators := {|
  Affine3d := float;
  Affine3f := float;
  SE3d := float;
  Vector6d := float;
  Matrix6d := float;
  Vector2f := float;
  Matrix2f := float;
  Vector8f := unit;
  Matrix2x6 := float;
  Affine3d_Identity := 0;
  SE3d_of_affine := fun t => t;
  SE3d_default := 0;
  SE3d_exp := fun v => v;
  SE3d_log := fun g => g;
  SE3d_inverse := opp;
  SE3d_mul := add;
  SE3d_matrix := fun g => g;
  SE3d_matrix_float := fun g => g;
  lpNorm_Infinity := abs;
  squaredNorm := fun v => v * v;
  Vector6d_add := add;
  Vector6d_scale := mul;
  Matrix6d_Identity := 1;
  Matrix6d_add := add;
  Matrix6d_scale := mul;
  ldlt_solve := fun A b => b / A;
  Vector2f_Zero := 0;
  Matrix2f_Zero := 0;
  Matrix2f_inverse := fun p => 1 / p;
  Matrix2f_scale := mul;
  RgbdImagePyramid := Z -> Scanline;
  RgbdImage := Scanline;
  IntrinsicMatrix := unit;
  PointSelection := Z -> list LinePoint;
  Point := LinePoint;
  PointError := LineError;
  Residual := float;
  NormalEquationsLeastSquares := float * float;
  level := fun pyr l => pyr l;
  intrinsics := fun _ => tt;
  getMaximumNumberOfPoints := fun sel l => length (sel l);
  select := fun sel l _ => sel l;
  current_weights := fun _ => tt;
  reference_weights := fun _ => tt;
  computeResidualsSse := fun ps img _ t _ _ =>
    let es := residuals_of img t ps in (es, map residual es);
  computeWeightsSse := fun rs w _ _ => unit_weights rs w;
  computeScaleSse := fun _ _ _ => 1;
  computeCompleteDataLogLikelihood := fun rs w _ _ => log_likelihood rs w;
  jacobian := gradient;
  getIntensityAndDepthVec2f := residual;
  ls_initialize := (0, 0);
  ls_update := fun ls J r W => (fst ls + J * W * J, snd ls + J * W * r);
  ls_finish := fun ls => ls;
  ls_A := fst;
  ls_b := snd
|}.

(** A tracker that has not run yet. *)
Definition tracker (c : Config) : DenseTracker :=
  mkDenseTracker c (mkIterationContext 0%Z 0%Z 0 0) [].

(** A Result holding the guess and nothing else. *)
Definition guess (t : float) : @Result collaborators :=
  @mkResult collaborators t None 0 [].

Definition ramp : Scanline := mkScanline 1 0 100.

Definition pyramid : Z -> Scanline := fun _ => ramp.

(** One level, a budget of a hundred iterations, no prior. *)
Definition one_level : Config := mkConfig 0 0 100 0x1p-20 0 true.

(** The same with a budget of a single iteration. *)
Definition one_iteration : Config := mkConfig 0 0 1 0x1p-20 0 true.

(** The same with no budget at all. *)
Definition no_budget : Config := mkConfig 0 0 0 0x1p-20 0 true.


(** Two levels, 1 then 0. *)
Definition two_levels : Config := mkConfig 1 0 100 0x1p-20 0 true.

(** Two points the ramp reproduces exactly: the frames are aligned. *)
Definition aligned : Z -> list LinePoint :=
  fun _ => [mkLinePoint 10 10 1; mkLinePoint 20 20 1].

(** Two points seen two units further along the ramp. *)
Definition shifted : Z -> list LinePoint :=
  fun _ => [mkLinePoint 10 12 1; mkLinePoint 20 22 1].

(** No point at all: no level yields a residual. *)
Definition nothing : Z -> list LinePoint := fun _ => [].

(** A shifted point whose derivative is so small that its square
    underflows to zero. *)
Definition faint : Z -> list LinePoint :=
  fun _ => [mkLinePoint 10 12 0x1p-600].


(** On level 1 a single point whose derivative is a quarter of the slope,
    so that the first solved increment overshoots; on level 0 the shifted
    points. *)
Definition overshooting : Z -> list LinePoint :=
  fun l => if (l =? 1)%Z then [mkLinePoint 10 12 0x1p-2] else shifted l.

(** The level input and the state before the first level of a run. *)
Definition input (sel : Z -> list LinePoint) (l : Z) : @LevelInput collaborators :=
  @level_input collaborators sel pyramid l.

Definition fresh (c : Config) (sel : Z -> list LinePoint) (g : float)
    : @Tracking collaborators :=
  @start collaborators (tracker c) sel (guess g).

End Line.

(** ** The other overloads of match *)

Section Overloads.

Context {C : Collaborators}.

(** What the member reference_selection_ becomes once
    RgbdImagePyramid::compute and PointSelection::setRgbdImagePyramid have
    run on the reference pyramid (lines 130-131); both are defined
    elsewhere. *)
Variable setRgbdImagePyramid : PointSelection -> RgbdImagePyramid -> PointSelection.

(** Lines 128-134.  The value pairs what the core returns with the
    selection the tracker is left with. *)
Definition match_pyramid (d : DenseTracker) (reference_selection_ : PointSelection)
    (reference current : RgbdImagePyramid) (result : Result)
    : outcome (bool * Result * DenseTracker * PointSelection) :=
  let selection := setRgbdImagePyramid reference_selection_ reference in
  o <- match_ d selection current result ;;
  Done (o, selection).

(** [Result result; result.Transformation = transformation;] of lines
    106-107 and 118-119: no level records yet.  The constructor of Result
    is not among the sources; what it leaves in Information and in
    LogLikelihood is [info] and [ll]. *)
Definition Result_with (info : option Matrix6d) (ll : float) (transformation : Affine3d)
    : Result :=
  mkResult transformation info ll [].

(** Lines 116-126: the flag, the transformation written back and the
    tracker. *)
Definition match_selection_transformation (info : option Matrix6d) (ll : float)
    (d : DenseTracker) (reference : PointSelection) (current : RgbdImagePyramid)
    (transformation : Affine3d) : outcome (bool * Affine3d * DenseTracker) :=
  o <- match_ d reference current (Result_with info ll transformation) ;;
  Done (fst (fst o), Transformation (snd (fst o)), snd o).

(** Lines 104-114. *)
Definition match_pyramid_transformation (info : option Matrix6d) (ll : float)
    (d : DenseTracker) (reference_selection_ : PointSelection)
    (reference current : RgbdImagePyramid) (transformation : Affine3d)
    : outcome (bool * Affine3d * DenseTracker * PointSelection) :=
  o <- match_pyramid d reference_selection_ reference current
         (Result_with info ll transformation) ;;
  Done (fst (fst (fst o)), Transformation (snd (fst (fst o))), snd (fst o), snd o).

End Overloads.

(** ** Comparisons of doubles *)

Lemma SFcompare_Lt_swap (a b : spec_float) :
  SFcompare a b = Some Lt -> SFcompare b a = Some Gt.
Proof.
  destruct a as [sa|sa| |sa ma ea], b as [sb|sb| |sb mb eb]; simpl;
    try destruct sa; try destruct sb; simpl; try discriminate; try reflexivity.
  all: fold (Pos.compare ma mb); fold (Pos.compare mb ma);
       rewrite (Z.compare_antisym ea eb), (Pos.compare_antisym ma mb);
       destruct (ea ?= eb)%Z; simpl; try discriminate; try reflexivity;
       destruct (ma ?= mb)%positive; simpl; try discriminate; try reflexivity.
Qed.

(** A double strictly above another is not at or below it. *)
Lemma ltb_not_leb (a b : float) : (a <? b)%float = true -> (b <=? a)%float = false.
Proof.
  rewrite ltb_spec, leb_spec. unfold SFltb, SFleb.
  destruct (SFcompare (Prim2SF a) (Prim2SF b)) as [[]|] eqn:E; try discriminate.
  intros _. rewrite (SFcompare_Lt_swap _ _ E). reflexivity.
Qed.

(** ** The outcome monad *)

Lemma bind_Done {A B : Type} (m : outcome A) (k : A -> outcome B) (b : B) :
  bind m k = Done b -> exists a, m = Done a /\ k a = Done b.
Proof. destruct m as [a|f]; simpl; intros H; [eauto | discriminate]. Qed.

Lemma bind_Fault {A B : Type} (m : outcome A) (k : A -> outcome B) (f : fault) :
  bind m k = Fault f -> m = Fault f \/ exists a, m = Done a /\ k a = Fault f.
Proof.
  destruct m as [a|g]; simpl; intros H; [right; eauto | left].
  injection H as ->. reflexivity.
Qed.

Lemma fill_n_Done (w : list float) (n : nat) (v : float) (w' : list float) :
  fill_n w n v = Done w' -> firstn n w' = repeat v n /\ length w' = length w.
Proof.
  unfold fill_n. destruct (n <=? length w)%nat eqn:E; [|discriminate].
  intros H; injection H as <-. apply Nat.leb_le in E. split.
  - rewrite firstn_app, repeat_length, Nat.sub_diag. simpl.
    rewrite app_nil_r. apply firstn_all2. rewrite repeat_length. lia.
  - rewrite length_app, repeat_length, length_skipn. lia.
Qed.

Lemma fill_n_not_fuel (w : list float) (n : nat) (v : float) :
  fill_n w n v <> Fault OutOfFuel.
Proof. unfold fill_n. destruct (n <=? length w)%nat; discriminate. Qed.

(** ** Descending runs of doubles *)

Lemma last_default (b : float) (l : list float) (d d' : float) :
  last (b :: l) d = last (b :: l) d'.
Proof.
  revert b. induction l as [|c l IH]; intros b; [reflexivity|].
  change (last (c :: l) d = last (c :: l) d'). apply IH.
Qed.

Lemma descending_snoc (a : float) (l : list float) (e : float) :
  descending (a :: l) -> (e <? last (a :: l) a)%float = true ->
  descending (a :: l ++ [e]).
Proof.
  revert a. induction l as [|b l IH]; intros a Hd He.
  - simpl in *. auto.
  - destruct Hd as (Hba & Hd). split; [assumption|].
    apply IH; [assumption|].
    change (last (a :: b :: l) a) with (last (b :: l) a) in He.
    now rewrite (last_default b l b a).
Qed.

Lemma last_cons_snoc (a : float) (l : list float) (e : float) :
  last (a :: l ++ [e]) a = e.
Proof. change (a :: l ++ [e]) with ((a :: l) ++ [e]). apply last_last. Qed.

(** ** Vectors *)

Lemma back_snoc {A : Type} (l : list A) (a : A) : back (l ++ [a]) = Done a.
Proof. unfold back. now rewrite rev_app_distr. Qed.

Lemma at_index_last {A : Type} (l : list A) (a : A) :
  at_index (l ++ [a]) (size_minus (l ++ [a]) 1) = Done a.
Proof.
  unfold at_index, size_minus. rewrite length_app. simpl.
  replace (1 <=? Z.of_nat (length l + 1)) with true by (symmetry; apply Z.leb_le; lia).
  replace (Z.of_nat (length l + 1) - 1) with (Z.of_nat (length l)) by lia.
  replace (0 <=? Z.of_nat (length l)) with true by (symmetry; apply Z.leb_le; lia).
  replace (Z.of_nat (length l) <? Z.of_nat (length l + 1)) with true
    by (symmetry; apply Z.ltb_lt; lia).
  simpl. rewrite Nat2Z.id, nth_error_app2, Nat.sub_diag by lia. reflexivity.
Qed.

Lemma at_index_before_last {A : Type} (l : list A) (a b : A) :
  at_index ((l ++ [a]) ++ [b]) (size_minus ((l ++ [a]) ++ [b]) 2) = Done a.
Proof.
  unfold at_index, size_minus. rewrite !length_app. simpl.
  replace (2 <=? Z.of_nat (length l + 1 + 1)) with true by (symmetry; apply Z.leb_le; lia).
  replace (Z.of_nat (length l + 1 + 1) - 2) with (Z.of_nat (length l)) by lia.
  replace (0 <=? Z.of_nat (length l)) with true by (symmetry; apply Z.leb_le; lia).
  replace (Z.of_nat (length l) <? Z.of_nat (length l + 1 + 1)) with true
    by (symmetry; apply Z.ltb_lt; lia).
  simpl. rewrite Nat2Z.id, nth_error_app1 by (rewrite length_app; simpl; lia).
  rewrite nth_error_app2, Nat.sub_diag by lia. reflexivity.
Qed.

(** Two below the size of a one-element vector is far out of range. *)
Lemma at_index_wraps {A : Type} (a : A) :
  at_index [a] (size_minus [a] 2) = Fault OutOfRange.
Proof. reflexivity. Qed.

Lemma filter_all {A : Type} (f : A -> bool) (l : list A) :
  Forall (fun a => f a = true) l -> filter f l = l.
Proof.
  induction 1 as [|a l Ha _ IH]; [reflexivity|]. simpl. now rewrite Ha, IH.
Qed.

Section DriverFacts.

Context {C : Collaborators}.
Variable cfg : Config.
Variable li : LevelInput.

(** *** The loop body *)

Lemma evaluate_spec (s : Loop) (t : Trial) :
  evaluate cfg li s = Done t ->
  let s1 := trial_state t in
  inc s1 = SE3d_exp (x s) /\
  initial s1 = update (initial s) (SE3d_mul (SE3d_inverse (SE3d_exp (x s))) (value (initial s))) /\
  estimate s1 = update (estimate s) (SE3d_mul (SE3d_exp (x s)) (value (estimate s))) /\
  accept s1 = (Error (ctx s1) <? LastError (ctx s1))%float /\
  LastError (ctx s1) = Error (ctx s) /\
  Iteration (ctx s1) = Iteration (ctx s) /\
  Level (ctx s1) = Level (ctx s) /\
  x s1 = x s /\
  stats s1 = stats s /\
  TDistributionLogLikelihood (trial_stats t) = Error (ctx s1) /\
  EstimateIncrement (trial_stats t) = None /\
  EstimateInformation (trial_stats t) = None /\
  ValidConstraints (trial_stats t) = length (residuals_at li s) /\
  Id (trial_stats t) = Iteration (ctx s).
Proof.
  unfold evaluate. intros H. apply bind_Done in H. destruct H as (w & _ & H).
  injection H as <-. simpl. repeat split; reflexivity.
Qed.

Lemma accumulate_not_fuel (ls : NormalEquationsLeastSquares) (es : list PointError)
    (w : list float) (p : Matrix2f) :
  accumulate ls es w p <> Fault OutOfFuel.
Proof.
  revert ls w. induction es as [|e es IH]; intros ls w; simpl; [discriminate|].
  destruct w as [|wi w]; [discriminate | apply IH].
Qed.

Lemma evaluate_not_fuel (s : Loop) : evaluate cfg li s <> Fault OutOfFuel.
Proof.
  unfold evaluate. intros H. apply bind_Fault in H. destruct H as [H | (w & _ & H)].
  - destruct (IsFirstIterationOnLevel (ctx s)); [|discriminate].
    exact (fill_n_not_fuel _ _ _ H).
  - discriminate.
Qed.

Lemma iteration_cases (s s' : Loop) :
  iteration cfg li s = Done s' -> iteration_result cfg li s s'.
Proof.
  unfold iteration. intros H. apply bind_Done in H. destruct H as (t & Ht & H).
  destruct (accept (trial_state t)) eqn:Ha.
  - unfold solve in H. apply bind_Done in H. destruct H as (ne & Hne & H).
    injection H as <-. eapply iteration_accepted; eauto.
  - injection H as <-. eapply iteration_rejected; eauto.
Qed.

Lemma iteration_not_fuel (s : Loop) : iteration cfg li s <> Fault OutOfFuel.
Proof.
  unfold iteration. intros H. apply bind_Fault in H. destruct H as [H | (t & _ & H)].
  - exact (evaluate_not_fuel _ H).
  - destruct (accept (trial_state t)); [|discriminate].
    unfold solve, normal_equations in H.
    apply bind_Fault in H. destruct H as [H | (ne & _ & H)]; [|discriminate].
    apply bind_Fault in H. destruct H as [H | (ls & _ & H)]; [|discriminate].
    exact (accumulate_not_fuel _ _ _ _ H).
Qed.

(** The effect of an iteration on every variable of the loop. *)
Lemma iteration_spec (s s' : Loop) :
  iteration cfg li s = Done s' ->
  inc s' = SE3d_exp (x s) /\
  LastError (ctx s') = Error (ctx s) /\
  accept s' = (Error (ctx s') <? LastError (ctx s'))%float /\
  Level (ctx s') = Level (ctx s) /\
  exists st, stats s' = stats s ++ [st] /\
    TDistributionLogLikelihood st = Error (ctx s') /\
    accepted st = accept s' /\
    Id st = Iteration (ctx s) /\
    ValidConstraints st = length (residuals_at li s) /\
    (accept s' = true ->
       Iteration (ctx s') = Iteration (ctx s) + 1 /\
       value (initial s') = SE3d_mul (SE3d_inverse (SE3d_exp (x s))) (value (initial s)) /\
       value (estimate s') = SE3d_mul (SE3d_exp (x s)) (value (estimate s)) /\
       EstimateIncrement st = Some (x s')) /\
    (accept s' = false ->
       Iteration (ctx s') = Iteration (ctx s) /\
       x s' = x s /\
       value (initial s') = value (initial s) /\
       value (estimate s') = value (estimate s) /\
       EstimateInformation st = None).
Proof.
  intros H. destruct (iteration_cases _ _ H) as [t ne Ht Ha _ ->|t Ht Ha ->];
    destruct (evaluate_spec _ _ Ht)
      as (Hinc & Hini & Hest & Hacc & Hlast & Hit & Hlvl & Hx & Hst & Htd & Hei & Hef & Hvc & Hid);
    cbn zeta in *.
  - unfold solved; simpl. rewrite Ha. repeat split; try assumption.
    + congruence.
    + eexists; split; [rewrite Hst; reflexivity|]. simpl.
      repeat split; try assumption; try congruence; try discriminate.
      * rewrite Hini. reflexivity.
      * rewrite Hest. reflexivity.
  - unfold reject; simpl. rewrite Ha. repeat split; try assumption.
    + congruence.
    + eexists; split; [rewrite Hst; reflexivity|].
      unfold accepted. rewrite Hei.
      repeat split; try assumption; try congruence; try discriminate.
      * rewrite Hini. reflexivity.
      * rewrite Hest. reflexivity.
Qed.

(** The weights and the error of the trial. *)
Lemma evaluate_weights (s : Loop) (t : Trial) :
  evaluate cfg li s = Done t ->
  let s1 := trial_state t in
  (IsFirstIterationOnLevel (ctx s) = true ->
     fill_n (wbuf s) (length (residuals_at li s)) 1%float = Done (wbuf s1)) /\
  Error (ctx s1) =
    (- computeCompleteDataLogLikelihood (residuals_at li s) (wbuf s1) Vector2f_Zero
         (precision s1))%float.
Proof.
  unfold evaluate. intros H. apply bind_Done in H. destruct H as (w & Hw & H).
  injection H as <-. simpl. split; [|reflexivity].
  intros Hf. rewrite Hf in Hw. exact Hw.
Qed.



Lemma solved_wbuf (t : Trial) (ne : Matrix6d * Vector6d) :
  wbuf (solved t ne) = wbuf (trial_state t).
Proof. reflexivity. Qed.

Lemma reject_wbuf (t : Trial) : wbuf (reject t) = wbuf (trial_state t).
Proof. reflexivity. Qed.

(** *** The loop *)

Lemma continues_true (s : Loop) :
  continues cfg s = true <->
  accept s = true /\ (Precision cfg <? lpNorm_Infinity (x s))%float = true /\
  Iteration (ctx s) < MaxIterationsPerLevel cfg.
Proof.
  unfold continues, IterationsExceeded.
  rewrite !andb_true_iff, negb_true_iff, Z.leb_gt. tauto.
Qed.

(** A rejected iteration leaves the loop at once, whatever the fuel. *)
Lemma do_while_reject (fuel : nat) (s s' : Loop) :
  iteration cfg li s = Done s' -> accept s' = false ->
  do_while fuel cfg li s = Done s'.
Proof.
  intros H Ha. destruct fuel; simpl; rewrite H; simpl; rewrite Ha; reflexivity.
Qed.

(** One unfolding of the loop. *)
Lemma do_while_step (fuel : nat) (s s' : Loop) :
  iteration cfg li s = Done s' ->
  do_while (S fuel) cfg li s =
    if continues cfg s' then do_while fuel cfg li s' else Done s'.
Proof.
  intros H. simpl. rewrite H. simpl.
  destruct (accept s') eqn:Ha; simpl; [reflexivity|].
  unfold continues. rewrite Ha. reflexivity.
Qed.

Lemma do_while_run (fuel : nat) (s s' : Loop) :
  do_while fuel cfg li s = Done s' -> loop_run cfg li s s'.
Proof.
  revert s. induction fuel as [|fuel IH]; intros s H; simpl in H;
    apply bind_Done in H; destruct H as (s1 & Hit & H);
    destruct (accept s1) eqn:Ha; simpl in H.
  - destruct (continues cfg s1) eqn:Hc; [discriminate|].
    injection H as <-. now apply run_last.
  - injection H as <-. apply run_last; [assumption|].
    unfold continues. now rewrite Ha.
  - destruct (continues cfg s1) eqn:Hc.
    + eapply run_next; eauto.
    + injection H as <-. now apply run_last.
  - injection H as <-. apply run_last; [assumption|].
    unfold continues. now rewrite Ha.
Qed.

(** The loop never asks for more fuel than the iterations the budget still
    allows. *)
Lemma do_while_fuel (fuel : nat) (s : Loop) :
  MaxIterationsPerLevel cfg - Iteration (ctx s) - 1 <= Z.of_nat fuel ->
  do_while fuel cfg li s <> Fault OutOfFuel.
Proof.
  revert s. induction fuel as [|fuel IH]; intros s Hf H; simpl in H;
    apply bind_Fault in H; destruct H as [H | (s1 & Hit & H)];
    try (exact (iteration_not_fuel _ H));
    destruct (iteration_spec _ _ Hit) as (_ & _ & _ & _ & st & _ & _ & _ & _ & _ & Hacc & _);
    destruct (accept s1) eqn:Ha; simpl in H; try discriminate;
    destruct (continues cfg s1) eqn:Hc; try discriminate;
    apply continues_true in Hc; destruct Hc as (_ & _ & Hlt);
    destruct (Hacc eq_refl) as (Hi & _).
  - lia.
  - apply (IH s1); [lia | exact H].
Qed.

Lemma loop_run_final (s s' : Loop) : loop_run cfg li s s' -> continues cfg s' = false.
Proof. induction 1; assumption. Qed.


(** *** Invariants of the loop *)

Lemma iteration_chained (s s' : Loop) :
  iteration cfg li s = Done s' -> chained s ->
  descending (DBL_MAX :: accepted_errors (stats s')) /\
  (accept s' = true -> chained s').
Proof.
  intros Hit (Hd & Hl).
  destruct (iteration_spec _ _ Hit)
    as (_ & Hlast & Hacc & _ & st & Hst & Htd & Hast & _ & _ & _ & _).
  unfold chained, accepted_errors. rewrite Hst, filter_app. simpl.
  destruct (accept s') eqn:Ha; rewrite Hast.
  - rewrite map_app. simpl. rewrite Htd.
    assert (Hlt : (Error (ctx s') <? last (DBL_MAX :: accepted_errors (stats s)) DBL_MAX)%float = true)
      by (rewrite Hl, <- Hlast; symmetry; exact Hacc).
    split; [|intros _; split].
    + apply descending_snoc; assumption.
    + apply descending_snoc; assumption.
    + apply last_cons_snoc.
  - rewrite app_nil_r. split; [exact Hd | discriminate].
Qed.

Lemma loop_run_descending (s s' : Loop) :
  loop_run cfg li s s' -> chained s ->
  descending (DBL_MAX :: accepted_errors (stats s')).
Proof.
  induction 1 as [s s' Hit Hc | s s1 s' Hit Hc Hrun IH]; intros Hch.
  - exact (proj1 (iteration_chained _ _ Hit Hch)).
  - apply IH. apply (proj2 (iteration_chained _ _ Hit Hch)).
    now apply continues_true in Hc.
Qed.

Lemma loop_run_records (s s' : Loop) :
  loop_run cfg li s s' ->
  Forall (fun st => accepted st = true) (stats s) ->
  (stats s <> [] -> continues cfg s = true) ->
  level_records cfg s'.
Proof.
  induction 1 as [s s' Hit Hc | s s1 s' Hit Hc Hrun IH]; intros Hall Hhead.
  - destruct (iteration_spec _ _ Hit)
      as (_ & _ & _ & _ & st & Hst & _ & Hast & _ & _ & _ & Hrej).
    destruct (accept s') eqn:Ha.
    + apply records_accepted; [assumption| |].
      * rewrite Hst. apply Forall_app. split; [assumption|]. now constructor.
      * rewrite Hst. now destruct (stats s).
    + destruct (Hrej eq_refl) as (Hi & Hx & _ & _ & Hinfo).
      apply (records_rejected cfg s' (stats s) st); try assumption; try reflexivity.
      intros Hne. apply Hhead in Hne. apply continues_true in Hne.
      destruct Hne as (_ & Hn & Hlt).
      unfold termination, IterationsExceeded. rewrite Ha, Hx, Hi.
      rewrite (ltb_not_leb _ _ Hn). simpl.
      apply Z.leb_gt in Hlt. now rewrite Hlt.
  - destruct (iteration_spec _ _ Hit)
      as (_ & _ & _ & _ & st & Hst & _ & Hast & _ & _ & _ & _).
    apply IH.
    + rewrite Hst. apply Forall_app. split; [assumption|].
      constructor; [|constructor]. rewrite Hast. now apply continues_true in Hc.
    + intros _. exact Hc.
Qed.

(** The number of records of a level. *)
Lemma loop_run_length (s s' : Loop) :
  loop_run cfg li s s' ->
  Z.of_nat (length (stats s)) = Iteration (ctx s) ->
  (length (stats s) < length (stats s'))%nat /\
  Z.of_nat (length (stats s')) <=
    Z.max (Iteration (ctx s) + 1) (MaxIterationsPerLevel cfg) /\
  Iteration (ctx s') <= Z.max (Iteration (ctx s) + 1) (MaxIterationsPerLevel cfg).
Proof.
  induction 1 as [s s' Hit Hc | s s1 s' Hit Hc Hrun IH]; intros Hlen.
  - destruct (iteration_spec _ _ Hit)
      as (_ & _ & _ & _ & st & Hst & _ & _ & _ & _ & Hacc & Hrej).
    rewrite Hst, length_app. simpl.
    destruct (accept s'); [destruct (Hacc eq_refl) as (Hi & _) | destruct (Hrej eq_refl) as (Hi & _)];
      lia.
  - destruct (iteration_spec _ _ Hit)
      as (_ & _ & _ & _ & st & Hst & _ & _ & _ & _ & Hacc & _).
    apply continues_true in Hc. destruct Hc as (Ha & _ & Hlt).
    destruct (Hacc Ha) as (Hi & _).
    assert (H1 : Z.of_nat (length (stats s1)) = Iteration (ctx s1))
      by (rewrite Hst, length_app; simpl; lia).
    destruct (IH H1) as (IH1 & IH2 & IH3).
    rewrite Hst, length_app in IH1. simpl in IH1. lia.
Qed.

End DriverFacts.

(** ** Levels *)

Section LevelFacts.

Context {C : Collaborators}.
Variable cfg : Config.
Variable reference : PointSelection.
Variable current : RgbdImagePyramid.

Lemma enter_level_chained (lvl : Z) (t : Tracking) : chained (enter_level lvl t).
Proof. split; reflexivity. Qed.

Lemma run_level_Done (lvl : Z) (t t' : Tracking) :
  run_level cfg reference current lvl t = Done t' ->
  exists s,
    do_while (level_fuel cfg) cfg (level_input reference current lvl) (enter_level lvl t)
      = Done s /\
    t' = mkTracking (ctx s) (wbuf s) (inc s) (initial s) (estimate s) (accept s)
           (t_Levels t ++
              [mkLevelStats lvl (getMaximumNumberOfPoints reference lvl)
                 (length (points (level_input reference current lvl)))
                 (termination cfg s) (stats s)]).
Proof.
  unfold run_level. intros H. apply bind_Done in H. destruct H as (s & Hs & H).
  injection H as <-. eauto.
Qed.

(** The fuel of a level is never spent. *)
Lemma run_level_fuel (lvl : Z) (t : Tracking) :
  run_level cfg reference current lvl t <> Fault OutOfFuel.
Proof.
  unfold run_level. intros H. apply bind_Fault in H. destruct H as [H | (s & _ & H)].
  - revert H. apply do_while_fuel. unfold level_fuel, enter_level. simpl. lia.
  - discriminate.
Qed.

Lemma run_levels_fuel (ls : list Z) (t : Tracking) :
  run_levels cfg reference current ls t <> Fault OutOfFuel.
Proof.
  revert t. induction ls as [|l ls IH]; intros t H; simpl in H; [discriminate|].
  apply bind_Fault in H. destruct H as [H | (t1 & _ & H)].
  - exact (run_level_fuel _ _ H).
  - exact (IH _ H).
Qed.

(** The level that ran last. *)
Lemma run_levels_last (ls : list Z) (t t' : Tracking) :
  run_levels cfg reference current ls t = Done t' -> ls <> [] ->
  exists lvl t0, In lvl ls /\ run_level cfg reference current lvl t0 = Done t'.
Proof.
  revert t. induction ls as [|l ls IH]; intros t H Hne; [congruence|].
  simpl in H. apply bind_Done in H. destruct H as (t1 & H1 & H).
  destruct ls as [|l' ls].
  - simpl in H. injection H as <-. exists l, t. split; [now left | assumption].
  - destruct (IH _ H) as (lvl & t0 & Hin & H0); [discriminate|].
    exists lvl, t0. split; [now right | assumption].
Qed.

End LevelFacts.

(** ** The claims *)

Section Claims.

Context {C : Collaborators}.

(** What a returning call went through. *)
Lemma match_Done (d : DenseTracker) (reference : PointSelection)
    (current : RgbdImagePyramid) (result : Result) (success : bool)
    (r : Result) (d' : DenseTracker) :
  match_ d reference current result = Done (success, r, d') ->
  success = true /\
  exists t : Tracking,
    run_levels (cfg d) reference current (levels (cfg d))
      (start d reference result) = Done t /\
    finish t = Done r.
Proof.
  unfold match_. intros H.
  apply bind_Done in H. destruct H as (t & Ht & H).
  apply bind_Done in H. destruct H as (r0 & Hf & H).
  injection H as <- <- _. eauto.
Qed.

(** match never runs out of fuel. *)
Lemma match_fuel (d : DenseTracker) (reference : PointSelection)
    (current : RgbdImagePyramid) (result : Result) :
  match_ d reference current result <> Fault OutOfFuel.
Proof.
  unfold match_. intros H. apply bind_Fault in H. destruct H as [H | (t & _ & H)].
  - exact (run_levels_fuel _ _ _ _ _ H).
  - apply bind_Fault in H. destruct H as [H | (r & _ & H)]; [|discriminate].
    unfold finish in H. apply bind_Fault in H. destruct H as [H | (l & _ & H)].
    + unfold back in H. destruct (rev (t_Levels t)); discriminate.
    + apply bind_Fault in H. destruct H as [H | (it & _ & H)]; [|discriminate].
      unfold last_iteration, at_index in H.
      destruct (TerminationCriterion l) as [c|]; [|discriminate].
      destruct (negb _);
        match type of H with
        | (if ?b then _ else _) = _ => destruct b; [|discriminate]
        end;
        match type of H with
        | match ?o with _ => _ end = _ => destruct o; discriminate
        end.
Qed.

(** A last level that was left by the break after its first iteration, and
    that still records rejected-by-likelihood, sends line 443 two below a
    size of one. *)
Lemma finish_out_of_range (t : Tracking) (earlier : list LevelStats)
    (l : LevelStats) (it : IterationStats) :
  t_Levels t = earlier ++ [l] ->
  TerminationCriterion l = Some TerminationCriteria.LogLikelihoodDecreased ->
  Iterations l = [it] ->
  finish t = Fault OutOfRange.
Proof.
  intros Hl Hc Hi. unfold finish. rewrite Hl, back_snoc. simpl.
  unfold last_iteration. rewrite Hc, Hi. reflexivity.
Qed.

(** C1.  On every level, in every iteration of the inner loop, the staged
    updates of the two poses (initial <- inc^-1 * initial and
    estimate <- inc * estimate) are kept exactly when the new error is
    strictly below LastError, the error of the iteration before, which is
    DBL_MAX when the level starts; when it is not, both poses are back at
    the values they had before the iteration and the loop is left at once.
    Hence the errors recorded by the accepted iterations of a level
    descend strictly. *)
Theorem accept_iff_strictly_improved
    (cfg : Config) (li : LevelInput) (lvl : Z) (t : Tracking) (fuel : nat) (s' : Loop)
    (H : do_while fuel cfg li (enter_level lvl t) = Done s') :
  Error (ctx (enter_level lvl t)) = DBL_MAX /\
  (forall s s1 : Loop, iteration cfg li s = Done s1 ->
     LastError (ctx s1) = Error (ctx s) /\
     accept s1 = (Error (ctx s1) <? LastError (ctx s1))%float /\
     (accept s1 = true ->
        value (initial s1)
          = SE3d_mul (SE3d_inverse (SE3d_exp (x s))) (value (initial s)) /\
        value (estimate s1) = SE3d_mul (SE3d_exp (x s)) (value (estimate s))) /\
     (accept s1 = false ->
        value (initial s1) = value (initial s) /\
        value (estimate s1) = value (estimate s) /\
        forall n : nat, do_while n cfg li s = Done s1)) /\
  descending (DBL_MAX :: accepted_errors (stats s')).
Proof.
  split; [reflexivity|]. split.
  - intros s s1 Hit.
    destruct (iteration_spec _ _ _ _ Hit)
      as (_ & Hlast & Hacc & _ & st & _ & _ & _ & _ & _ & Hyes & Hno).
    repeat split; try assumption.
    + now destruct (Hyes H0) as (_ & Hi & _).
    + now destruct (Hyes H0) as (_ & _ & He & _).
    + now destruct (Hno H0) as (_ & _ & Hi & _).
    + now destruct (Hno H0) as (_ & _ & _ & He & _).
    + intros n. now apply do_while_reject.
  - apply (loop_run_descending cfg li (enter_level lvl t)).
    + eapply do_while_run; eassumption.
    + apply enter_level_chained.
Qed.

(** C2, as the code has it.  For every level processed, the field
    TerminationCriterion is written by three tests in a row, so the reason
    recorded is the last one that holds in the order rejected, converged,
    exhausted: iterations-exhausted overrides increment-converged, which
    overrides rejected-by-likelihood.  A reason is recorded unless the
    loop was left after an accepted iteration whose increment norm is
    neither above nor at or below Precision (a norm that is not a
    number). *)
Theorem termination_reason_recorded
    (cfg : Config) (reference : PointSelection) (current : RgbdImagePyramid)
    (lvl : Z) (t t' : Tracking)
    (H : run_level cfg reference current lvl t = Done t') :
  exists (s : Loop) (l : LevelStats),
    do_while (level_fuel cfg) cfg (level_input reference current lvl) (enter_level lvl t)
      = Done s /\
    t_Levels t' = t_Levels t ++ [l] /\
    LevelId l = lvl /\
    TerminationCriterion l =
      (if exhausted cfg s then Some TerminationCriteria.IterationsExceeded
       else if converged cfg s then Some TerminationCriteria.IncrementTooSmall
       else if rejected s then Some TerminationCriteria.LogLikelihoodDecreased
       else None) /\
    (TerminationCriterion l = None ->
       accept s = true /\
       (Precision cfg <? lpNorm_Infinity (x s))%float = false /\
       (lpNorm_Infinity (x s) <=? Precision cfg)%float = false /\
       Iteration (ctx s) < MaxIterationsPerLevel cfg).
Proof.
  destruct (run_level_Done _ _ _ _ _ _ H) as (s & Hs & ->).
  eexists s, _. split; [exact Hs|]. split; [reflexivity|]. split; [reflexivity|].
  simpl. split; [reflexivity|].
  pose proof (loop_run_final _ _ _ _ (do_while_run _ _ _ _ _ Hs)) as Hc.
  unfold termination, continues, IterationsExceeded in *.
  destruct (MaxIterationsPerLevel cfg <=? Iteration (ctx s)) eqn:Hx; [discriminate|].
  destruct (lpNorm_Infinity (x s) <=? Precision cfg)%float eqn:Hn; [discriminate|].
  destruct (accept s) eqn:Ha; [|discriminate]. intros _.
  simpl in Hc. rewrite andb_true_r in Hc. apply Z.leb_gt in Hx. auto.
Qed.

(** C6, as the code has it.  The body of the inner loop runs once before
    the condition is looked at; after that the loop goes on exactly while
    the last iteration was accepted, the largest component of the solved
    increment is above Precision and the counter is below
    MaxIterationsPerLevel.  Hence a level records at least one iteration
    and at most max(1, MaxIterationsPerLevel) of them, and the counter
    ends at most there too. *)
Theorem iterations_bounded
    (cfg : Config) (reference : PointSelection) (current : RgbdImagePyramid)
    (lvl : Z) (t t' : Tracking)
    (H : run_level cfg reference current lvl t = Done t') :
  let li := level_input reference current lvl in
  (forall (fuel : nat) (s s1 : Loop), iteration cfg li s = Done s1 ->
     do_while (S fuel) cfg li s =
       if continues cfg s1 then do_while fuel cfg li s1 else Done s1) /\
  (forall s : Loop,
     continues cfg s = true <->
     accept s = true /\ (Precision cfg <? lpNorm_Infinity (x s))%float = true /\
     Iteration (ctx s) < MaxIterationsPerLevel cfg) /\
  exists l : LevelStats,
    t_Levels t' = t_Levels t ++ [l] /\
    1 <= Z.of_nat (length (Iterations l)) <= Z.max 1 (MaxIterationsPerLevel cfg) /\
    Iteration (t_ctx t') <= Z.max 1 (MaxIterationsPerLevel cfg).
Proof.
  intros li. split; [intros fuel s s1; apply do_while_step|].
  split; [apply continues_true|].
  destruct (run_level_Done _ _ _ _ _ _ H) as (s & Hs & ->).
  eexists. split; [reflexivity|]. simpl.
  destruct (loop_run_length _ _ _ _ (do_while_run _ _ _ _ _ Hs) eq_refl) as (H1 & H2 & H3).
  simpl in H1, H2, H3. lia.
Qed.

(** C7.  On every level, whatever the scale estimator and the influence
    function are, the first iteration gives weight exactly 1 to every point
    whose residual was computed; the weights are not estimated from a
    previous distribution on that iteration. *)
Theorem first_iteration_weights_are_one
    (cfg : Config) (reference : PointSelection) (current : RgbdImagePyramid)
    (lvl : Z) (t : Tracking) (s' : Loop)
    (H : iteration cfg (level_input reference current lvl) (enter_level lvl t) = Done s') :
  let n := length (residuals_at (level_input reference current lvl) (enter_level lvl t)) in
  firstn n (wbuf s') = repeat 1%float n /\
  fill_n (t_wbuf t) n 1%float = Done (wbuf s') /\
  exists st : IterationStats,
    stats s' = [st] /\ Id st = 0 /\ ValidConstraints st = n.
Proof.
  intros n.
  assert (Hw : fill_n (t_wbuf t) n 1%float = Done (wbuf s')).
  { destruct (iteration_cases _ _ _ _ H) as [tr ne Ht _ _ ->|tr Ht _ ->];
      destruct (evaluate_weights _ _ _ _ Ht) as (Hf & _);
      [rewrite solved_wbuf | rewrite reject_wbuf]; apply Hf; reflexivity. }
  split; [exact (proj1 (fill_n_Done _ _ _ _ Hw))|]. split; [exact Hw|].
  destruct (iteration_spec _ _ _ _ H)
    as (_ & _ & _ & _ & st & Hst & _ & _ & Hid & Hvc & _).
  exists st. auto.
Qed.

(** C8.  Whenever match returns, the flag it returns is true: neither a
    level that did not converge, nor rejection on every level, nor the
    absence of valid points makes it false. *)
Theorem match_returns_true
    (d : DenseTracker) (reference : PointSelection) (current : RgbdImagePyramid)
    (result : Result) (success : bool) (r : Result) (d' : DenseTracker)
    (H : match_ d reference current result = Done (success, r, d')) :
  success = true.
Proof. exact (proj1 (match_Done _ _ _ _ _ _ _ H)). Qed.



(** What lines 442-447 read.  Once the level loop is done, the Result is
    filled from one record of the last level: the record before the last
    when the reason recorded for that level is rejected-by-likelihood, the
    last record otherwise.  Transformation is the inverse of the committed
    estimate, Information is the information matrix of that record
    multiplied twice by the constant 0.008, and LogLikelihood is the sum of
    its t-distribution and prior log-likelihoods.  When the last level
    accepted an iteration, the record is the one of its last accepted
    iteration; when it accepted none, the record is the one of its single,
    rejected iteration, which holds no information matrix. *)
Lemma result_from_final_level
    (d : DenseTracker) (reference : PointSelection) (current : RgbdImagePyramid)
    (result : Result) (success : bool) (r : Result) (d' : DenseTracker)
    (H : match_ d reference current result = Done (success, r, d')) :
  exists (t : Tracking) (l : LevelStats) (c : TerminationCriteria.Enum)
         (it : IterationStats),
    run_levels (cfg d) reference current (levels (cfg d)) (start d reference result)
      = Done t /\
    back (Levels r) = Done l /\
    TerminationCriterion l = Some c /\
    at_index (Iterations l)
      (size_minus (Iterations l)
         (if TerminationCriteria.eqb c TerminationCriteria.LogLikelihoodDecreased
          then 2 else 1)) = Done it /\
    Transformation r = SE3d_matrix (SE3d_inverse (value (t_estimate t))) /\
    Information r =
      option_map (fun A => Matrix6d_scale information_scale
                             (Matrix6d_scale information_scale A))
                 (EstimateInformation it) /\
    LogLikelihood r = (TDistributionLogLikelihood it + PriorLogLikelihood it)%float /\
    (LastLevel (cfg d) <= FirstLevel (cfg d) ->
     match filter accepted (Iterations l) with
     | [] => Iterations l = [it] /\ accepted it = false /\ Information r = None
     | _ :: _ => exists earlier, filter accepted (Iterations l) = earlier ++ [it]
     end).
Proof.
  destruct (match_Done _ _ _ _ _ _ _ H) as (_ & t & Ht & Hf). unfold finish in Hf.
  apply bind_Done in Hf. destruct Hf as (l & Hl & Hf).
  apply bind_Done in Hf. destruct Hf as (it & Hit & Hf).
  injection Hf as <-. simpl.
  unfold last_iteration in Hit.
  destruct (TerminationCriterion l) as [c|] eqn:Hc; [|discriminate].
  exists t, l, c, it. split; [exact Ht|]. split; [exact Hl|]. split; [exact Hc|].
  assert (Hidx : at_index (Iterations l)
            (size_minus (Iterations l)
               (if TerminationCriteria.eqb c TerminationCriteria.LogLikelihoodDecreased
                then 2 else 1)) = Done it).
  { destruct (TerminationCriteria.eqb c TerminationCriteria.LogLikelihoodDecreased);
      exact Hit. }
  split; [exact Hidx|]. repeat (split; [reflexivity|]).
  intros Hsane.
  destruct (run_levels_last _ _ _ _ _ _ Ht) as (lvl & t0 & _ & Hrun).
  { unfold levels.
    destruct (Z.to_nat (FirstLevel (cfg d) - LastLevel (cfg d) + 1)) eqn:E; [lia|discriminate]. }
  destruct (run_level_Done _ _ _ _ _ _ Hrun) as (s & Hs & ->).
  simpl in Hl. rewrite back_snoc in Hl. injection Hl as <-.
  simpl in Hc, Hidx |- *.
  assert (Hrec : level_records (cfg d) s).
  { eapply loop_run_records; [eapply do_while_run; exact Hs | constructor | ].
    intros Hne. now contradiction Hne. }
  destruct Hrec as [Ha Hall Hne | acc rj Ha Hst Hall Hrj Hinfo Hlld].
  - assert (Hcne : TerminationCriteria.eqb c TerminationCriteria.LogLikelihoodDecreased = false).
    { unfold termination in Hc. rewrite Ha in Hc. simpl in Hc.
      destruct (IterationsExceeded (cfg d) (ctx s));
        [injection Hc as <-; reflexivity|].
      destruct (lpNorm_Infinity (x s) <=? Precision (cfg d))%float;
        [injection Hc as <-; reflexivity | discriminate]. }
    rewrite Hcne in Hidx. rewrite (filter_all _ _ Hall).
    destruct (exists_last Hne) as (l0 & a & Hl0). rewrite Hl0 in Hidx |- *.
    rewrite at_index_last in Hidx. injection Hidx as <-.
    destruct l0; simpl; [exists [] | eexists (_ :: _)]; reflexivity.
  - rewrite Hst, filter_app. simpl. rewrite Hrj, app_nil_r, (filter_all _ _ Hall).
    destruct acc as [|a0 acc].
    + simpl in Hst. rewrite Hst in Hidx.
      destruct (TerminationCriteria.eqb c TerminationCriteria.LogLikelihoodDecreased).
      * rewrite at_index_wraps in Hidx. discriminate.
      * change [rj] with ([] ++ [rj]) in Hidx. rewrite at_index_last in Hidx.
        injection Hidx as <-. simpl. rewrite Hinfo. auto.
    + assert (Hc2 : termination (cfg d) s = Some TerminationCriteria.LogLikelihoodDecreased)
        by (apply Hlld; discriminate).
      rewrite Hc2 in Hc. injection Hc as <-. simpl in Hidx.
      destruct (@exists_last _ (a0 :: acc)) as (l0 & a & Hl0); [discriminate|].
      rewrite Hl0 in Hst |- *. rewrite Hst, at_index_before_last in Hidx.
      injection Hidx as <-. eauto.
Qed.



End Claims.

(** ** Runs on the line *)

#[local] Existing Instance Line.collaborators.

(** C2, as stated, fails.  With a budget of one iteration and aligned
    frames, the first iteration is accepted, solves for a zero increment
    and spends the budget: converged and exhausted both hold.  The
    priority order of the claim picks increment-converged; the level
    records iterations-exhausted. *)
Lemma termination_priority_counterexample :
  exists (s : @Loop Line.collaborators) (r : @Result Line.collaborators)
         (d' : DenseTracker),
    do_while (C := Line.collaborators) (level_fuel Line.one_iteration)
      Line.one_iteration (Line.input Line.aligned 0)
      (enter_level 0 (Line.fresh Line.one_iteration Line.aligned 0)) = Done s /\
    rejected s = false /\
    converged Line.one_iteration s = true /\
    exhausted Line.one_iteration s = true /\
    reason_by_priority Line.one_iteration s = Some TerminationCriteria.IncrementTooSmall /\
    termination Line.one_iteration s = Some TerminationCriteria.IterationsExceeded /\
    match_ (C := Line.collaborators) (Line.tracker Line.one_iteration) Line.aligned
      Line.pyramid (Line.guess 0) = Done (true, r, d') /\
    map TerminationCriterion (Levels r) = [Some TerminationCriteria.IterationsExceeded].
Proof.
  eexists _, _, _. split; [vm_compute; reflexivity|].
  do 5 (split; [vm_compute; reflexivity|]).
  split; vm_compute; reflexivity.
Qed.

(** C3 fails on the code.  The claim has the Result filled from the
    statistics of the last accepted iteration.  With no point to register
    and the identity as guess, the only iteration of the only level is
    rejected; the increment it tried is at or below Precision, so the
    reason recorded is increment-converged, and line 443 takes the last
    record, the one of the rejected iteration: no accepted iteration
    exists, and the matrix Information is computed from was never
    written. *)
Lemma result_from_rejected_iteration :
  exists (r : @Result Line.collaborators) (d' : DenseTracker)
         (l : LevelStats) (it : IterationStats),
    match_ (C := Line.collaborators) (Line.tracker Line.one_level) Line.nothing
      Line.pyramid (Line.guess 0) = Done (true, r, d') /\
    Levels r = [l] /\
    TerminationCriterion l = Some TerminationCriteria.IncrementTooSmall /\
    Iterations l = [it] /\
    last_iteration l = Done it /\
    accepted it = false /\
    filter accepted (Iterations l) = [] /\
    Information r = None /\
    LogLikelihood r = (TDistributionLogLikelihood it + PriorLogLikelihood it)%float.
Proof.
  eexists _, _, _, _. split; [vm_compute; reflexivity|].
  split; [reflexivity|]. split; [reflexivity|]. split; [reflexivity|].
  repeat split.
Qed.



(** The same with a derivative so small that its square underflows: the
    solve returns an infinite increment, the loop goes on, and the next
    iteration stages it; only the error of that trial, which is not a
    number, makes the acceptance test drop it. *)
Lemma infinite_increment_staged :
  exists (t : @Tracking Line.collaborators) (l : LevelStats)
         (it0 it1 : IterationStats),
    run_levels (C := Line.collaborators) Line.one_level Line.faint Line.pyramid
      (levels Line.one_level) (Line.fresh Line.one_level Line.faint 0) = Done t /\
    t_Levels t = [l] /\
    Iterations l = [it0; it1] /\
    EstimateInformation it0 = Some 0%float /\
    EstimateIncrement it0 = Some infinity /\
    accepted it0 = true /\
    t_inc t = infinity /\
    TDistributionLogLikelihood it1 = nan /\
    accepted it1 = false /\
    value (t_estimate t) = 0%float.
Proof.
  eexists _, _, _, _. split; [vm_compute; reflexivity|].
  repeat split.
Qed.

(** C6, as stated, fails.  With MaxIterationsPerLevel = 0 the body still
    runs once: the level records one iteration and the counter ends at
    one. *)
Lemma iterations_exceed_budget :
  exists (r : @Result Line.collaborators) (d' : DenseTracker) (l : LevelStats),
    match_ (C := Line.collaborators) (Line.tracker Line.no_budget) Line.aligned
      Line.pyramid (Line.guess 0) = Done (true, r, d') /\
    Levels r = [l] /\
    MaxIterationsPerLevel Line.no_budget < Z.of_nat (length (Iterations l)) /\
    MaxIterationsPerLevel Line.no_budget < Iteration (itctx_ d').
Proof.
  eexists _, _, _. split; [vm_compute; reflexivity|].
  split; [reflexivity|]. split; reflexivity.
Qed.

(** C9 fails on the code.  With no point to register and a guess whose
    logarithm is above Precision, the first iteration of the last level is
    rejected, the reason recorded is rejected-by-likelihood, the level
    holds a single record, and line 443 indexes the record two below the
    size. *)
Lemma last_iteration_out_of_range :
  match_ (C := Line.collaborators) (Line.tracker Line.one_level) Line.nothing
    Line.pyramid (Line.guess 0.5) = Fault OutOfRange /\
  exists t : @Tracking Line.collaborators,
    run_levels (C := Line.collaborators) Line.one_level Line.nothing Line.pyramid
      (levels Line.one_level)
      (Line.fresh Line.one_level Line.nothing 0.5) = Done t /\
    map TerminationCriterion (t_Levels t)
      = [Some TerminationCriteria.LogLikelihoodDecreased] /\
    map (fun l => length (Iterations l)) (t_Levels t) = [1%nat].
Proof.
  split; [vm_compute; reflexivity|].
  eexists. split; [vm_compute; reflexivity|]. split; reflexivity.
Qed.


(** ** The theorems at work on the line *)

(** Registering the shifted points on one level: the errors accepted
    descend from [DBL_MAX]. *)
Lemma accept_iff_strictly_improved_witness :
  exists s' : @Loop Line.collaborators,
    do_while (C := Line.collaborators) 100 Line.one_level (Line.input Line.shifted 0)
      (enter_level 0 (Line.fresh Line.one_level Line.shifted 0)) = Done s' /\
    accepted_errors (stats s') = [4%float; 0%float] /\
    descending (DBL_MAX :: accepted_errors (stats s')).
Proof.
  eexists. split; [vm_compute; reflexivity|]. split; [reflexivity|].
  refine (proj2 (proj2 (accept_iff_strictly_improved (C := Line.collaborators)
            Line.one_level (Line.input Line.shifted 0) 0
            (Line.fresh Line.one_level Line.shifted 0) 100 _ _))).
  vm_compute. reflexivity.
Defined.

Lemma termination_reason_recorded_witness :
  exists (t' : @Tracking Line.collaborators),
    run_level (C := Line.collaborators) Line.one_level Line.shifted Line.pyramid 0
      (Line.fresh Line.one_level Line.shifted 0) = Done t' /\
    exists (s : @Loop Line.collaborators) (l : LevelStats),
      t_Levels t' = t_Levels (Line.fresh Line.one_level Line.shifted 0) ++ [l] /\
      TerminationCriterion l =
        (if exhausted Line.one_level s then Some TerminationCriteria.IterationsExceeded
         else if converged Line.one_level s then Some TerminationCriteria.IncrementTooSmall
         else if rejected s then Some TerminationCriteria.LogLikelihoodDecreased
         else None).
Proof.
  eexists. split; [vm_compute; reflexivity|].
  match goal with
  | |- exists s l, t_Levels ?t' = _ /\ _ =>
      assert (H : run_level (C := Line.collaborators) Line.one_level Line.shifted
                    Line.pyramid 0 (Line.fresh Line.one_level Line.shifted 0) = Done t')
        by (vm_compute; reflexivity)
  end.
  destruct (termination_reason_recorded _ _ _ _ _ _ H) as (s & l & _ & Hl & _ & Hc & _).
  exists s, l. split; [exact Hl | exact Hc].
Defined.



Lemma iterations_bounded_witness :
  exists (t' : @Tracking Line.collaborators),
    run_level (C := Line.collaborators) Line.one_level Line.shifted Line.pyramid 0
      (Line.fresh Line.one_level Line.shifted 0) = Done t' /\
    exists l : LevelStats,
      t_Levels t' = t_Levels (Line.fresh Line.one_level Line.shifted 0) ++ [l] /\
      1 <= Z.of_nat (length (Iterations l))
        <= Z.max 1 (MaxIterationsPerLevel Line.one_level) /\
      Iteration (t_ctx t') <= Z.max 1 (MaxIterationsPerLevel Line.one_level).
Proof.
  eexists. split; [vm_compute; reflexivity|].
  refine (proj2 (proj2 (iterations_bounded (C := Line.collaborators)
            Line.one_level Line.shifted Line.pyramid 0
            (Line.fresh Line.one_level Line.shifted 0) _ _))).
  vm_compute. reflexivity.
Defined.

Lemma first_iteration_weights_are_one_witness :
  exists s' : @Loop Line.collaborators,
    iteration (C := Line.collaborators) Line.one_level
      (level_input Line.shifted Line.pyramid 0)
      (enter_level 0 (Line.fresh Line.one_level Line.shifted 0)) = Done s' /\
    wbuf s' = [1%float; 1%float] /\
    firstn 2 (wbuf s') = repeat 1%float 2.
Proof.
  eexists. split; [vm_compute; reflexivity|]. split; [reflexivity|].
  refine (proj1 (first_iteration_weights_are_one (C := Line.collaborators)
            Line.one_level Line.shifted Line.pyramid 0
            (Line.fresh Line.one_level Line.shifted 0) _ _)).
  vm_compute. reflexivity.
Defined.

Lemma match_returns_true_witness :
  exists (success : bool) (r : @Result Line.collaborators) (d' : DenseTracker),
    match_ (C := Line.collaborators) (Line.tracker Line.two_levels) Line.overshooting
      Line.pyramid (Line.guess 0) = Done (success, r, d') /\
    success = true.
Proof.
  eexists _, _, _. split; [vm_compute; reflexivity|].
  refine (match_returns_true (C := Line.collaborators)
            (Line.tracker Line.two_levels) Line.overshooting Line.pyramid (Line.guess 0)
            _ _ _ _).
  vm_compute. reflexivity.
Defined.

(** ** More about the driver *)

Section DriverProperties.

Context {C : Collaborators}.

(** *** The levels visited *)

Lemma levels_from_seq (first : Z) (count : nat) :
  levels_from first count = map (fun k => first - Z.of_nat k) (seq 0 count).
Proof.
  revert first. induction count as [|n IH]; intros first; [reflexivity|].
  simpl levels_from. rewrite IH. simpl. f_equal; [lia|].
  rewrite <- seq_shift, map_map. apply map_ext. intros k. lia.
Qed.

Lemma run_levels_app (cfg : Config) (reference : PointSelection)
    (current : RgbdImagePyramid) (a b : list Z) (t : Tracking) :
  run_levels cfg reference current (a ++ b) t =
    bind (run_levels cfg reference current a t) (run_levels cfg reference current b).
Proof.
  revert t. induction a as [|l a IH]; intros t; [reflexivity|].
  simpl. destruct (run_level cfg reference current l t) as [t1|f]; simpl;
    [apply IH | reflexivity].
Qed.

Lemma run_levels_Levels (cfg : Config) (reference : PointSelection)
    (current : RgbdImagePyramid) (ls : list Z) (t t' : Tracking) :
  run_levels cfg reference current ls t = Done t' ->
  exists new : list LevelStats,
    t_Levels t' = t_Levels t ++ new /\
    map LevelId new = ls /\
    Forall (fun l =>
              MaxValidPixels l = getMaximumNumberOfPoints reference (LevelId l) /\
              ValidPixels l
                = length (select reference (LevelId l)
                            (intrinsics (level current (LevelId l)))) /\
              Iterations l <> []) new.
Proof.
  revert t. induction ls as [|lvl ls IH]; intros t H; simpl in H.
  - injection H as <-. exists []. rewrite app_nil_r. auto.
  - apply bind_Done in H. destruct H as (t1 & H1 & H).
    destruct (run_level_Done _ _ _ _ _ _ H1) as (s & Hs & ->).
    destruct (IH _ H) as (new & Hnew & Hmap & Hall). simpl in Hnew.
    eexists (_ :: new). rewrite Hnew, <- app_assoc. simpl.
    split; [reflexivity|]. split; [now rewrite Hmap|].
    constructor; [|exact Hall]. simpl. repeat split.
    destruct (loop_run_length _ _ _ _ (do_while_run _ _ _ _ _ Hs) eq_refl) as (Hlt & _).
    simpl in Hlt. intros E. rewrite E in Hlt. simpl in Hlt. lia.
Qed.

(** X1.  A call that returns has appended one LevelStats record per level
    of the pyramid range, from FirstLevel down to LastLevel in steps of
    one, behind the records the Result already held, which it leaves as
    they were.  Each new record carries the point counts of its level and
    at least one iteration. *)
Theorem match_appends_levels
    (d : DenseTracker) (reference : PointSelection) (current : RgbdImagePyramid)
    (result : Result) (success : bool) (r : Result) (d' : DenseTracker)
    (H : match_ d reference current result = Done (success, r, d')) :
  exists new : list LevelStats,
    Levels r = Levels result ++ new /\
    map LevelId new
      = map (fun k => FirstLevel (cfg d) - Z.of_nat k)
            (seq 0 (Z.to_nat (FirstLevel (cfg d) - LastLevel (cfg d) + 1))) /\
    Forall (fun l =>
              MaxValidPixels l = getMaximumNumberOfPoints reference (LevelId l) /\
              ValidPixels l
                = length (select reference (LevelId l)
                            (intrinsics (level current (LevelId l)))) /\
              Iterations l <> []) new.
Proof.
  destruct (match_Done _ _ _ _ _ _ _ H) as (_ & t & Ht & Hf).
  unfold finish in Hf.
  apply bind_Done in Hf. destruct Hf as (l & _ & Hf).
  apply bind_Done in Hf. destruct Hf as (it & _ & Hf).
  injection Hf as <-. simpl.
  destruct (run_levels_Levels _ _ _ _ _ _ Ht) as (new & Hnew & Hmap & Hall).
  exists new. split; [exact Hnew|]. split; [|exact Hall].
  rewrite Hmap. apply levels_from_seq.
Qed.

(** *** The numbering of the iterations *)

Lemma loop_run_ids (cfg : Config) (li : LevelInput) (s s' : Loop) :
  loop_run cfg li s s' ->
  map Id (stats s) = map Z.of_nat (seq 0 (length (stats s))) ->
  Iteration (ctx s) = Z.of_nat (length (stats s)) ->
  Forall (fun st => accepted st = true) (stats s) ->
  map Id (stats s') = map Z.of_nat (seq 0 (length (stats s'))) /\
  Iteration (ctx s') = Z.of_nat (length (filter accepted (stats s'))).
Proof.
  assert (Hstep : forall s s1, iteration cfg li s = Done s1 ->
            map Id (stats s) = map Z.of_nat (seq 0 (length (stats s))) ->
            Iteration (ctx s) = Z.of_nat (length (stats s)) ->
            Forall (fun st => accepted st = true) (stats s) ->
            map Id (stats s1) = map Z.of_nat (seq 0 (length (stats s1))) /\
            Iteration (ctx s1) = Z.of_nat (length (filter accepted (stats s1))) /\
            (accept s1 = true ->
               Iteration (ctx s1) = Z.of_nat (length (stats s1)) /\
               Forall (fun st => accepted st = true) (stats s1))).
  { intros s0 s1 Hit Hids Hn Hall.
    destruct (iteration_spec _ _ _ _ Hit)
      as (_ & _ & _ & _ & st & Hst & _ & Hast & Hid & _ & Hyes & Hno).
    rewrite Hst, map_app, length_app, filter_app, (filter_all _ _ Hall), length_app.
    simpl. rewrite Nat.add_1_r, seq_S, map_app, <- Hids. simpl. rewrite Hid, Hn.
    split; [reflexivity|]. rewrite Hast.
    destruct (accept s1).
    - destruct (Hyes eq_refl) as (Hi & _). simpl.
      split; [lia|]. intros _. split; [lia|].
      apply Forall_app. split; [exact Hall|]. now constructor.
    - destruct (Hno eq_refl) as (Hi & _). simpl.
      split; [lia | discriminate]. }
  induction 1 as [s s' Hit Hc | s s1 s' Hit Hc Hrun IH]; intros Hids Hn Hall.
  - destruct (Hstep _ _ Hit Hids Hn Hall) as (H1 & H2 & _). auto.
  - destruct (Hstep _ _ Hit Hids Hn Hall) as (_ & _ & H3).
    apply continues_true in Hc. destruct (H3 (proj1 Hc)) as (H4 & H5).
    apply IH; [|assumption|assumption].
    destruct (Hstep _ _ Hit Hids Hn Hall) as (H1 & _). exact H1.
Qed.

(** X2.  The records of a level are numbered 0, 1, 2, ... in the order in
    which the iterations ran, and the counter the level leaves in the
    iteration context is the number of its accepted iterations. *)
Theorem iterations_are_numbered
    (cfg : Config) (reference : PointSelection) (current : RgbdImagePyramid)
    (lvl : Z) (t t' : Tracking)
    (H : run_level cfg reference current lvl t = Done t') :
  exists l : LevelStats,
    t_Levels t' = t_Levels t ++ [l] /\
    map Id (Iterations l) = map Z.of_nat (seq 0 (length (Iterations l))) /\
    Iteration (t_ctx t') = Z.of_nat (length (filter accepted (Iterations l))).
Proof.
  destruct (run_level_Done _ _ _ _ _ _ H) as (s & Hs & ->).
  eexists. split; [reflexivity|]. simpl.
  apply (loop_run_ids cfg (level_input reference current lvl) (enter_level lvl t));
    [eapply do_while_run; exact Hs | reflexivity | reflexivity | constructor].
Qed.

(** *** What a call does not read *)

(** The loop body reads neither LastError nor accept: both are written
    before they are looked at. *)
Lemma iteration_ignores_stale (cfg : Config) (li : LevelInput)
    (l i : Z) (e le le' : float) (w : list float) (g : SE3d)
    (ini est : Revertable SE3d) (a a' : bool) (p : Matrix2f) (v : Vector6d)
    (st : list IterationStats) :
  iteration cfg li (mkLoop (mkIterationContext l i e le) w g ini est a p v st) =
  iteration cfg li (mkLoop (mkIterationContext l i e le') w g ini est a' p v st).
Proof. reflexivity. Qed.

Lemma do_while_ignores_stale (cfg : Config) (li : LevelInput) (fuel : nat)
    (l i : Z) (e le le' : float) (w : list float) (g : SE3d)
    (ini est : Revertable SE3d) (a a' : bool) (p : Matrix2f) (v : Vector6d)
    (st : list IterationStats) :
  do_while fuel cfg li (mkLoop (mkIterationContext l i e le) w g ini est a p v st) =
  do_while fuel cfg li (mkLoop (mkIterationContext l i e le') w g ini est a' p v st).
Proof.
  destruct fuel; simpl;
    rewrite (iteration_ignores_stale cfg li l i e le le' w g ini est a a' p v st);
    reflexivity.
Qed.

Lemma run_level_ignores_stale (cfg : Config) (reference : PointSelection)
    (current : RgbdImagePyramid) (lvl : Z) (c c' : IterationContext)
    (w : list float) (g : SE3d) (ini est : Revertable SE3d) (a a' : bool)
    (ls : list LevelStats) :
  run_level cfg reference current lvl (mkTracking c w g ini est a ls) =
  run_level cfg reference current lvl (mkTracking c' w g ini est a' ls).
Proof.
  unfold run_level, enter_level. simpl.
  rewrite (do_while_ignores_stale cfg (level_input reference current lvl) (level_fuel cfg)
             lvl 0 DBL_MAX (LastError c) (LastError c') w g ini est a a'
             Matrix2f_Zero (SE3d_log g) []).
  reflexivity.
Qed.

Lemma run_levels_same_start
    (d : DenseTracker) (reference : PointSelection) (current : RgbdImagePyramid)
    (result : Result) (c : IterationContext) (T : Affine3d)
    (info : option Matrix6d) (ll : float)
    (Hrange : LastLevel (cfg d) <= FirstLevel (cfg d))
    (Hguess : UseInitialEstimate (cfg d) = true -> T = Transformation result) :
  run_levels (cfg d) reference current (levels (cfg d))
    (start (mkDenseTracker (cfg d) c (weights d)) reference
       (mkResult T info ll (Levels result)))
  = run_levels (cfg d) reference current (levels (cfg d)) (start d reference result).
Proof.
  assert (Hne : exists l ls, levels (cfg d) = l :: ls).
  { unfold levels.
    destruct (Z.to_nat (FirstLevel (cfg d) - LastLevel (cfg d) + 1)) eqn:E; [lia|].
    simpl. eauto. }
  destruct Hne as (l & ls & ->). simpl.
  assert (Hstart : run_level (cfg d) reference current l
                     (start (mkDenseTracker (cfg d) c (weights d)) reference
                        (mkResult T info ll (Levels result)))
                   = run_level (cfg d) reference current l (start d reference result)).
  { unfold start. simpl.
    replace (if UseInitialEstimate (cfg d) then T else Affine3d_Identity)
      with (if UseInitialEstimate (cfg d) then Transformation result else Affine3d_Identity)
      by (destruct (UseInitialEstimate (cfg d)); [rewrite Hguess|]; reflexivity).
    apply run_level_ignores_stale. }
  rewrite Hstart. reflexivity.
Qed.

(** X3.  With a pyramid range that is not empty, what match returns is
    settled by the configuration, the weight buffer, the level records
    already in the Result and, when UseInitialEstimate is set, the
    Transformation passed in.  The iteration context a previous call left
    in the tracker, the Information and LogLikelihood passed in and, when
    UseInitialEstimate is not set, the Transformation passed in make no
    difference. *)
Theorem match_ignores_stale_state
    (d : DenseTracker) (reference : PointSelection) (current : RgbdImagePyramid)
    (result : Result) (c : IterationContext) (T : Affine3d)
    (info : option Matrix6d) (ll : float)
    (Hrange : LastLevel (cfg d) <= FirstLevel (cfg d))
    (Hguess : UseInitialEstimate (cfg d) = true -> T = Transformation result) :
  match_ (mkDenseTracker (cfg d) c (weights d)) reference current
         (mkResult T info ll (Levels result))
  = match_ d reference current result.
Proof.
  unfold match_. simpl cfg.
  rewrite (run_levels_same_start d reference current result c T info ll Hrange Hguess).
  destruct (run_levels (cfg d) reference current (levels (cfg d))
              (start d reference result)) as [t|f]; reflexivity.
Qed.

(** *** The edges of the final lookup *)

Lemma levels_empty (c : Config) : FirstLevel c < LastLevel c -> levels c = [].
Proof.
  intros H. unfold levels.
  replace (Z.to_nat (FirstLevel c - LastLevel c + 1)) with 0%nat by lia. reflexivity.
Qed.

(** X4.  With FirstLevel below LastLevel no level is processed, and a
    Result that holds no level record makes line 442 take the last element
    of an empty vector: the call has no defined result. *)
Theorem match_empty_range_out_of_range
    (d : DenseTracker) (reference : PointSelection) (current : RgbdImagePyramid)
    (result : Result)
    (Hrange : FirstLevel (cfg d) < LastLevel (cfg d))
    (Hnone : Levels result = []) :
  match_ d reference current result = Fault OutOfRange.
Proof.
  unfold match_. rewrite (levels_empty _ Hrange). simpl.
  unfold finish, start. simpl. rewrite Hnone. reflexivity.
Qed.

(** X5.  Whenever the first iteration of the last level is rejected while
    the increment it tried is above Precision and MaxIterationsPerLevel is
    positive, the level records rejected-by-likelihood with a single
    iteration, and line 443 indexes two below that size: the call has no
    defined result. *)
Theorem match_rejected_first_iteration_out_of_range
    (d : DenseTracker) (reference : PointSelection) (current : RgbdImagePyramid)
    (result : Result) (before : list Z) (lvl : Z) (t0 : Tracking) (s1 : Loop)
    (Hlevels : levels (cfg d) = before ++ [lvl])
    (Hbefore : run_levels (cfg d) reference current before (start d reference result)
               = Done t0)
    (Hfirst : iteration (cfg d) (level_input reference current lvl) (enter_level lvl t0)
              = Done s1)
    (Hrejected : accept s1 = false)
    (Hseed : (Precision (cfg d) <? lpNorm_Infinity (SE3d_log (t_inc t0)))%float = true)
    (Hbudget : 0 < MaxIterationsPerLevel (cfg d)) :
  match_ d reference current result = Fault OutOfRange.
Proof.
  unfold match_. rewrite Hlevels, run_levels_app, Hbefore. simpl.
  unfold run_level.
  rewrite (do_while_reject _ _ (level_fuel (cfg d)) _ _ Hfirst Hrejected). simpl.
  destruct (iteration_spec _ _ _ _ Hfirst)
    as (_ & _ & _ & _ & st & Hst & _ & _ & _ & _ & _ & Hno).
  destruct (Hno Hrejected) as (Hi & Hx & _).
  erewrite finish_out_of_range; [reflexivity | reflexivity | | exact Hst].
  simpl. unfold termination, IterationsExceeded.
  rewrite Hrejected, Hx, Hi. simpl.
  rewrite (ltb_not_leb _ _ Hseed).
  replace (MaxIterationsPerLevel (cfg d) <=? 0) with false
    by (symmetry; apply Z.leb_gt; exact Hbudget).
  reflexivity.
Qed.

(** *** The records of a level *)

Lemma loop_run_complete (cfg : Config) (li : LevelInput) (s s' : Loop) :
  loop_run cfg li s s' ->
  Forall (fun st => accepted st = true -> EstimateInformation st <> None) (stats s) ->
  Forall (fun st => accepted st = true -> EstimateInformation st <> None) (stats s').
Proof.
  assert (Hstep : forall s s1, iteration cfg li s = Done s1 ->
            Forall (fun st => accepted st = true -> EstimateInformation st <> None) (stats s) ->
            Forall (fun st => accepted st = true -> EstimateInformation st <> None) (stats s1)).
  { intros s0 s1 Hit Hall.
    destruct (iteration_cases _ _ _ _ Hit) as [t ne Ht _ _ ->|t Ht Ha ->];
      destruct (evaluate_spec _ _ _ _ Ht) as (_ & _ & _ & _ & _ & _ & _ & _ & Hst & _ & Hei & _);
      cbn zeta in Hst; simpl; rewrite Hst; apply Forall_app; split; try exact Hall;
      constructor; try constructor; simpl.
    - discriminate.
    - unfold accepted. rewrite Hei. discriminate. }
  induction 1 as [s s' Hit Hc | s s1 s' Hit Hc Hrun IH]; intros Hall; eauto.
Qed.

(** X7.  The records of a level are those of its accepted iterations, each
    holding an increment and an information matrix, followed by one more
    record that holds neither exactly when the level was left by a
    rejection.  A rejection that follows an accepted iteration is always
    recorded as rejected-by-likelihood: the other two tests can overwrite
    that reason only when the rejected iteration is the first of its
    level. *)
Theorem level_records_shape
    (cfg : Config) (reference : PointSelection) (current : RgbdImagePyramid)
    (lvl : Z) (t t' : Tracking)
    (H : run_level cfg reference current lvl t = Done t') :
  exists (l : LevelStats) (acc : list IterationStats),
    t_Levels t' = t_Levels t ++ [l] /\
    Forall (fun st => EstimateIncrement st <> None /\ EstimateInformation st <> None) acc /\
    ((t_accept t' = true /\ Iterations l = acc /\ acc <> []) \/
     (t_accept t' = false /\
      exists rj : IterationStats,
        Iterations l = acc ++ [rj] /\
        EstimateIncrement rj = None /\ EstimateInformation rj = None /\
        (acc <> [] ->
         TerminationCriterion l = Some TerminationCriteria.LogLikelihoodDecreased))).
Proof.
  destruct (run_level_Done _ _ _ _ _ _ H) as (s & Hs & ->).
  pose proof (do_while_run _ _ _ _ _ Hs) as Hrun.
  assert (Hinfo : Forall (fun st => accepted st = true -> EstimateInformation st <> None)
                    (stats s))
    by (apply (loop_run_complete _ _ _ _ Hrun); constructor).
  assert (Hrec : level_records cfg s).
  { eapply loop_run_records; [exact Hrun | constructor |].
    intros Hne. now contradiction Hne. }
  assert (Hboth : forall l0,
             Forall (fun st => accepted st = true) l0 ->
             Forall (fun st => accepted st = true -> EstimateInformation st <> None) l0 ->
             Forall (fun st => EstimateIncrement st <> None /\ EstimateInformation st <> None)
               l0).
  { intros l0 Ha Hi. rewrite Forall_forall in *. intros st Hin.
    specialize (Ha st Hin). specialize (Hi st Hin Ha). split; [|exact Hi].
    unfold accepted in Ha. destruct (EstimateIncrement st); [discriminate|discriminate]. }
  destruct Hrec as [Ha Hall Hne | acc rj Ha Hst Hall Hrj Hnone Hlld].
  - eexists _, (stats s). split; [reflexivity|]. split; [now apply Hboth|].
    left. simpl. auto.
  - eexists _, acc. split; [reflexivity|].
    rewrite Hst in Hinfo. apply Forall_app in Hinfo. destruct Hinfo as (Hinfo & _).
    split; [now apply Hboth|]. right. simpl. split; [exact Ha|].
    exists rj. split; [exact Hst|]. split; [|split; [exact Hnone | exact Hlld]].
    unfold accepted in Hrj. destruct (EstimateIncrement rj); [discriminate|reflexivity].
Qed.

(** *** Termination *)

Lemma do_while_more_fuel (cfg : Config) (li : LevelInput) (fuel extra : nat) (s : Loop) :
  do_while fuel cfg li s <> Fault OutOfFuel ->
  do_while (fuel + extra) cfg li s = do_while fuel cfg li s.
Proof.
  revert s. induction fuel as [|fuel IH]; intros s Hf.
  - simpl in Hf. destruct extra; simpl; [reflexivity|].
    destruct (iteration cfg li s) as [s1|f]; simpl in *; [|reflexivity].
    destruct (accept s1); simpl in *; [|reflexivity].
    destruct (continues cfg s1); [now contradiction Hf | reflexivity].
  - simpl in *. destruct (iteration cfg li s) as [s1|f]; simpl in *; [|reflexivity].
    destruct (accept s1); simpl in *; [|reflexivity].
    destruct (continues cfg s1); [|reflexivity]. now apply IH.
Qed.

(** X8.  The inner loop of a level terminates: unrolled
    MaxIterationsPerLevel times it never asks for another round, and
    unrolling it further changes nothing. *)
Theorem inner_loop_terminates
    (cfg : Config) (li : LevelInput) (lvl : Z) (t : Tracking) (extra : nat) :
  do_while (level_fuel cfg) cfg li (enter_level lvl t) <> Fault OutOfFuel /\
  do_while (level_fuel cfg + extra) cfg li (enter_level lvl t)
    = do_while (level_fuel cfg) cfg li (enter_level lvl t).
Proof.
  assert (Hf : do_while (level_fuel cfg) cfg li (enter_level lvl t) <> Fault OutOfFuel).
  { apply do_while_fuel. unfold level_fuel, enter_level. simpl. lia. }
  split; [exact Hf | now apply do_while_more_fuel].
Qed.

(** *** The first iteration of a call *)

(** X9.  The guess enters as the first increment.  Where exp undoes log at
    the guess, the inverse of the guess cancels it and the identity is
    neutral for it, an accepted first iteration of the first level leaves
    the guess in the estimate and the identity in initial; a rejected one
    leaves the identity in the estimate and the guess in initial. *)
Theorem first_iteration_moves_guess
    (d : DenseTracker) (reference : PointSelection) (result : Result)
    (li : LevelInput) (lvl : Z) (s1 : Loop)
    (Hexp : SE3d_exp (SE3d_log (t_inc (start d reference result)))
            = t_inc (start d reference result))
    (Hinv : SE3d_mul (SE3d_inverse (t_inc (start d reference result)))
              (t_inc (start d reference result)) = SE3d_default)
    (Hid : SE3d_mul (t_inc (start d reference result)) SE3d_default
           = t_inc (start d reference result))
    (H : iteration (cfg d) li (enter_level lvl (start d reference result)) = Done s1) :
  (accept s1 = true ->
     value (estimate s1) = t_inc (start d reference result) /\
     value (initial s1) = SE3d_default) /\
  (accept s1 = false ->
     value (estimate s1) = SE3d_default /\
     value (initial s1) = t_inc (start d reference result)).
Proof.
  destruct (iteration_spec _ _ _ _ H)
    as (_ & _ & _ & _ & st & _ & _ & _ & _ & _ & Hyes & Hno).
  split; intros Ha.
  - destruct (Hyes Ha) as (_ & Hi & He & _). rewrite Hi, He.
    change (x (enter_level lvl (start d reference result)))
      with (SE3d_log (t_inc (start d reference result))).
    rewrite Hexp. split; [exact Hid | exact Hinv].
  - destruct (Hno Ha) as (_ & _ & Hi & He & _). rewrite Hi, He. split; reflexivity.
Qed.

(** X10.  The weight buffer is grown to the number of points the finest
    level can have before the first level starts, so on the first level
    the fill of the first iteration stays inside the buffer whenever the
    residuals are no more than that; a first iteration with more
    residuals than the buffer holds writes out of range. *)
Theorem first_fill_in_range
    (d : DenseTracker) (reference : PointSelection) (result : Result)
    (li : LevelInput) (lvl : Z) :
  let s0 := enter_level lvl (start d reference result) in
  (getMaximumNumberOfPoints reference (LastLevel (cfg d)) <= length (wbuf s0))%nat /\
  ((length (residuals_at li s0) <= length (wbuf s0))%nat ->
     exists tr : Trial, evaluate (cfg d) li s0 = Done tr) /\
  ((length (wbuf s0) < length (residuals_at li s0))%nat ->
     evaluate (cfg d) li s0 = Fault OutOfRange).
Proof.
  intros s0. split; [|split].
  - unfold s0, enter_level, start, grow. simpl.
    destruct (length (weights d) <? getMaximumNumberOfPoints reference (LastLevel (cfg d)))%nat
      eqn:E.
    + rewrite length_app, repeat_length. lia.
    + apply Nat.ltb_ge in E. exact E.
  - intros Hn. unfold evaluate. change (IsFirstIterationOnLevel (ctx s0)) with true.
    cbv iota. unfold fill_n.
    match goal with
    | |- context [(?n <=? ?m)%nat] =>
        replace (n <=? m)%nat with true by (symmetry; apply Nat.leb_le; exact Hn)
    end.
    simpl. eauto.
  - intros Hn. unfold evaluate. change (IsFirstIterationOnLevel (ctx s0)) with true.
    cbv iota. unfold fill_n.
    match goal with
    | |- context [(?n <=? ?m)%nat] =>
        replace (n <=? m)%nat with false by (symmetry; apply Nat.leb_gt; exact Hn)
    end.
    reflexivity.
Qed.

(** *** The Result of a level that accepted an iteration *)

(** X6.  Whenever match returns and the last level accepted an iteration,
    the Result is filled from the record of the last accepted iteration of
    that level: Information is its information matrix multiplied twice by
    0.008, and LogLikelihood is the sum of its two log-likelihoods. *)
Theorem result_from_last_accepted
    (d : DenseTracker) (reference : PointSelection) (current : RgbdImagePyramid)
    (result : Result) (success : bool) (r : Result) (d' : DenseTracker)
    (l : LevelStats)
    (H : match_ d reference current result = Done (success, r, d'))
    (Hrange : LastLevel (cfg d) <= FirstLevel (cfg d))
    (Hlast : back (Levels r) = Done l)
    (Haccepted : filter accepted (Iterations l) <> []) :
  exists (earlier : list IterationStats) (it : IterationStats) (A : Matrix6d),
    filter accepted (Iterations l) = earlier ++ [it] /\
    EstimateInformation it = Some A /\
    Information r
      = Some (Matrix6d_scale information_scale (Matrix6d_scale information_scale A)) /\
    LogLikelihood r = (TDistributionLogLikelihood it + PriorLogLikelihood it)%float.
Proof.
  destruct (result_from_final_level _ _ _ _ _ _ _ H)
    as (t & l' & c & it & Ht & Hl' & _ & _ & _ & Hinfo & Hll & Hrec).
  rewrite Hlast in Hl'. injection Hl' as <-.
  specialize (Hrec Hrange).
  destruct (filter accepted (Iterations l)) as [|a0 rest] eqn:Hf; [now contradiction Haccepted|].
  destruct Hrec as (earlier & Hearlier).
  assert (Hin : In it (filter accepted (Iterations l)))
    by (rewrite Hf, Hearlier; apply in_or_app; right; now left).
  apply filter_In in Hin. destruct Hin as (Hin & Hacc).
  assert (Hcomplete : Forall (fun st => accepted st = true -> EstimateInformation st <> None)
                        (Iterations l)).
  { destruct (match_Done _ _ _ _ _ _ _ H) as (_ & t1 & Ht1 & Hf1).
    destruct (run_levels_last _ _ _ _ _ _ Ht1) as (lvl & t0 & _ & Hrun).
    { unfold levels.
      destruct (Z.to_nat (FirstLevel (cfg d) - LastLevel (cfg d) + 1)) eqn:E;
        [lia|discriminate]. }
    destruct (run_level_Done _ _ _ _ _ _ Hrun) as (s & Hs & ->).
    unfold finish in Hf1. apply bind_Done in Hf1. destruct Hf1 as (l1 & Hl1 & Hf1).
    apply bind_Done in Hf1. destruct Hf1 as (it1 & _ & Hf1).
    injection Hf1 as <-. simpl in Hlast, Hl1. rewrite back_snoc in Hlast.
    injection Hlast as <-. simpl.
    apply (loop_run_complete _ _ _ _ (do_while_run _ _ _ _ _ Hs)). constructor. }
  rewrite Forall_forall in Hcomplete. specialize (Hcomplete it Hin Hacc).
  destruct (EstimateInformation it) as [A|] eqn:HA; [|now contradiction Hcomplete].
  exists earlier, it, A. rewrite Hinfo, Hll. auto.
Qed.

(** *** The overloads *)

(** X11.  The overloads that take a transformation start the core from a
    Result without level records.  With a pyramid range that is not empty,
    what they return depends neither on what the constructor of Result
    leaves in Information and LogLikelihood nor, when UseInitialEstimate
    is not set, on the transformation passed in. *)
Theorem overloads_ignore_what_they_overwrite
    (setRgbdImagePyramid : PointSelection -> RgbdImagePyramid -> PointSelection)
    (d : DenseTracker) (selection : PointSelection)
    (reference current : RgbdImagePyramid) (T T' : Affine3d)
    (info info' : option Matrix6d) (ll ll' : float)
    (Hrange : LastLevel (cfg d) <= FirstLevel (cfg d))
    (Hguess : UseInitialEstimate (cfg d) = true -> T' = T) :
  match_selection_transformation info' ll' d selection current T'
    = match_selection_transformation info ll d selection current T /\
  match_pyramid_transformation setRgbdImagePyramid info' ll' d selection reference current T'
    = match_pyramid_transformation setRgbdImagePyramid info ll d selection reference current T.
Proof.
  assert (Hcore : forall sel,
            match_ d sel current (Result_with info' ll' T')
            = match_ d sel current (Result_with info ll T)).
  { intros sel. unfold match_.
    pose proof (run_levels_same_start d sel current (Result_with info ll T)
                  (itctx_ d) T' info' ll' Hrange Hguess) as E.
    destruct d as [c0 i0 w0]. simpl in E |- *. unfold Result_with in *. simpl in E.
    rewrite E. reflexivity. }
  unfold match_selection_transformation, match_pyramid_transformation, match_pyramid.
  rewrite !Hcore. split; reflexivity.
Qed.

(** X14.  Every overload returns true whenever it returns, and the
    transformation written back is the Transformation of the Result of the
    core.  As the overloads that take a transformation hand the core a
    Result without level records, a configuration with FirstLevel below
    LastLevel always sends them out of range. *)
Theorem overloads_flag_and_empty_range
    (setRgbdImagePyramid : PointSelection -> RgbdImagePyramid -> PointSelection)
    (d : DenseTracker) (selection : PointSelection)
    (reference current : RgbdImagePyramid) (T : Affine3d)
    (info : option Matrix6d) (ll : float) :
  (forall success T2 d',
     match_selection_transformation info ll d selection current T
       = Done (success, T2, d') ->
     success = true /\
     exists r, match_ d selection current (Result_with info ll T) = Done (true, r, d') /\
               T2 = Transformation r) /\
  (forall success r d' sel' (result : Result),
     match_pyramid setRgbdImagePyramid d selection reference current result
       = Done (success, r, d', sel') ->
     success = true /\ sel' = setRgbdImagePyramid selection reference) /\
  (forall success T2 d' sel',
     match_pyramid_transformation setRgbdImagePyramid info ll d selection reference
       current T = Done (success, T2, d', sel') ->
     success = true) /\
  (FirstLevel (cfg d) < LastLevel (cfg d) ->
     match_selection_transformation info ll d selection current T = Fault OutOfRange /\
     match_pyramid_transformation setRgbdImagePyramid info ll d selection reference
       current T = Fault OutOfRange).
Proof.
  split; [|split; [|split]].
  - intros success T2 d' H. unfold match_selection_transformation in H.
    apply bind_Done in H. destruct H as ([[b r] d1] & Hm & H).
    simpl in H. injection H as <- <- <-.
    destruct (match_Done _ _ _ _ _ _ _ Hm) as (-> & _). eauto.
  - intros success r d' sel' result H. unfold match_pyramid in H.
    apply bind_Done in H. destruct H as ([[b r1] d1] & Hm & H).
    injection H as <- <- <- <-.
    destruct (match_Done _ _ _ _ _ _ _ Hm) as (-> & _). auto.
  - intros success T2 d' sel' H.
    unfold match_pyramid_transformation, match_pyramid in H.
    apply bind_Done in H. destruct H as ([[[b r1] d1] s1] & Hm & H).
    apply bind_Done in Hm. destruct Hm as ([[b2 r2] d2] & Hm & Hm2).
    injection Hm2 as <- <- <- <-. simpl in H. injection H as <- _ _ _.
    now destruct (match_Done _ _ _ _ _ _ _ Hm) as (-> & _).
  - intros Hrange.
    unfold match_selection_transformation, match_pyramid_transformation, match_pyramid.
    unfold match_. rewrite (levels_empty _ Hrange). simpl. split; reflexivity.
Qed.

End DriverProperties.

(** ** The further properties at work *)

Lemma match_appends_levels_witness :
  exists (r : @Result Line.collaborators) (d' : DenseTracker),
    match_ (C := Line.collaborators) (Line.tracker Line.two_levels) Line.overshooting
      Line.pyramid (Line.guess 0) = Done (true, r, d') /\
    exists new : list LevelStats,
      Levels r = Levels (Line.guess 0) ++ new /\
      map LevelId new = [1; 0].
Proof.
  eexists _, _. split; [vm_compute; reflexivity|].
  match goal with
  | |- exists new, Levels ?r = _ /\ _ =>
      eassert (H : match_ (C := Line.collaborators) (Line.tracker Line.two_levels)
                     Line.overshooting Line.pyramid (Line.guess 0) = Done (true, r, _))
        by (vm_compute; reflexivity)
  end.
  destruct (match_appends_levels _ _ _ _ _ _ _ H) as (new & Hnew & Hids & _).
  exists new. split; [exact Hnew | exact Hids].
Defined.

Lemma iterations_are_numbered_witness :
  exists t' : @Tracking Line.collaborators,
    run_level (C := Line.collaborators) Line.two_levels Line.overshooting Line.pyramid 1
      (Line.fresh Line.two_levels Line.overshooting 0) = Done t' /\
    exists l : LevelStats,
      t_Levels t' = t_Levels (Line.fresh Line.two_levels Line.overshooting 0) ++ [l] /\
      map Id (Iterations l) = map Z.of_nat (seq 0 (length (Iterations l))) /\
      Iteration (t_ctx t') = Z.of_nat (length (filter accepted (Iterations l))).
Proof.
  eexists. split; [vm_compute; reflexivity|].
  refine (iterations_are_numbered (C := Line.collaborators) Line.two_levels
            Line.overshooting Line.pyramid 1
            (Line.fresh Line.two_levels Line.overshooting 0) _ _).
  vm_compute. reflexivity.
Defined.

Lemma match_ignores_stale_state_witness :
  LastLevel (cfg (Line.tracker (mkConfig 0 0 100 0x1p-20 0 false)))
    <= FirstLevel (cfg (Line.tracker (mkConfig 0 0 100 0x1p-20 0 false))) /\
  (UseInitialEstimate (cfg (Line.tracker (mkConfig 0 0 100 0x1p-20 0 false))) = true ->
   0.5%float = Transformation (Line.guess 0)) /\
  match_ (C := Line.collaborators)
    (mkDenseTracker (cfg (Line.tracker (mkConfig 0 0 100 0x1p-20 0 false)))
       (mkIterationContext 3 7 1 2)
       (weights (Line.tracker (mkConfig 0 0 100 0x1p-20 0 false))))
    Line.shifted Line.pyramid
    (mkResult (C := Line.collaborators) 0.5%float (Some 1%float) 9 (Levels (Line.guess 0)))
  = match_ (C := Line.collaborators) (Line.tracker (mkConfig 0 0 100 0x1p-20 0 false))
      Line.shifted Line.pyramid (Line.guess 0).
Proof.
  assert (Hrange : LastLevel (cfg (Line.tracker (mkConfig 0 0 100 0x1p-20 0 false)))
                   <= FirstLevel (cfg (Line.tracker (mkConfig 0 0 100 0x1p-20 0 false))))
    by (simpl; lia).
  assert (Hguess : UseInitialEstimate (cfg (Line.tracker (mkConfig 0 0 100 0x1p-20 0 false)))
                   = true -> 0.5%float = Transformation (Line.guess 0))
    by (simpl; discriminate).
  split; [exact Hrange|]. split; [exact Hguess|].
  exact (match_ignores_stale_state (C := Line.collaborators)
           (Line.tracker (mkConfig 0 0 100 0x1p-20 0 false)) Line.shifted Line.pyramid
           (Line.guess 0) (mkIterationContext 3 7 1 2) 0.5%float (Some 1%float) 9
           Hrange Hguess).
Defined.

Lemma match_empty_range_out_of_range_witness :
  FirstLevel (cfg (Line.tracker (mkConfig 0 1 100 0x1p-20 0 true)))
    < LastLevel (cfg (Line.tracker (mkConfig 0 1 100 0x1p-20 0 true))) /\
  Levels (Line.guess 0) = [] /\
  match_ (C := Line.collaborators) (Line.tracker (mkConfig 0 1 100 0x1p-20 0 true))
    Line.shifted Line.pyramid (Line.guess 0) = Fault OutOfRange.
Proof.
  assert (Hrange : FirstLevel (cfg (Line.tracker (mkConfig 0 1 100 0x1p-20 0 true)))
                   < LastLevel (cfg (Line.tracker (mkConfig 0 1 100 0x1p-20 0 true))))
    by (simpl; lia).
  split; [exact Hrange|]. split; [reflexivity|].
  exact (match_empty_range_out_of_range (C := Line.collaborators)
           (Line.tracker (mkConfig 0 1 100 0x1p-20 0 true)) Line.shifted Line.pyramid
           (Line.guess 0) Hrange eq_refl).
Defined.

Lemma match_rejected_first_iteration_out_of_range_witness :
  exists s1 : @Loop Line.collaborators,
    levels (cfg (Line.tracker Line.one_level)) = [] ++ [0] /\
    iteration (C := Line.collaborators) (cfg (Line.tracker Line.one_level))
      (level_input Line.nothing Line.pyramid 0)
      (enter_level 0 (start (Line.tracker Line.one_level) Line.nothing (Line.guess 0.5)))
      = Done s1 /\
    accept s1 = false /\
    match_ (C := Line.collaborators) (Line.tracker Line.one_level) Line.nothing
      Line.pyramid (Line.guess 0.5) = Fault OutOfRange.
Proof.
  eassert (Hfirst : iteration (C := Line.collaborators) (cfg (Line.tracker Line.one_level))
                      (level_input Line.nothing Line.pyramid 0)
                      (enter_level 0
                         (start (Line.tracker Line.one_level) Line.nothing (Line.guess 0.5)))
                    = Done _)
    by (vm_compute; reflexivity).
  eexists. split; [reflexivity|]. split; [exact Hfirst|]. split; [reflexivity|].
  refine (match_rejected_first_iteration_out_of_range (C := Line.collaborators)
            (Line.tracker Line.one_level) Line.nothing Line.pyramid (Line.guess 0.5)
            [] 0 (start (Line.tracker Line.one_level) Line.nothing (Line.guess 0.5))
            _ eq_refl eq_refl Hfirst _ _ _).
  - reflexivity.
  - vm_compute. reflexivity.
  - simpl. lia.
Defined.

Lemma level_records_shape_witness :
  exists t' : @Tracking Line.collaborators,
    run_level (C := Line.collaborators) Line.two_levels Line.overshooting Line.pyramid 1
      (Line.fresh Line.two_levels Line.overshooting 0) = Done t' /\
    exists (l : LevelStats) (acc : list IterationStats),
      t_Levels t' = t_Levels (Line.fresh Line.two_levels Line.overshooting 0) ++ [l] /\
      Forall (fun st => EstimateIncrement st <> None /\ EstimateInformation st <> None) acc /\
      ((t_accept t' = true /\ Iterations l = acc /\ acc <> []) \/
       (t_accept t' = false /\
        exists rj : IterationStats,
          Iterations l = acc ++ [rj] /\
          EstimateIncrement rj = None /\ EstimateInformation rj = None /\
          (acc <> [] ->
           TerminationCriterion l = Some TerminationCriteria.LogLikelihoodDecreased))).
Proof.
  eexists. split; [vm_compute; reflexivity|].
  refine (level_records_shape (C := Line.collaborators) Line.two_levels
            Line.overshooting Line.pyramid 1
            (Line.fresh Line.two_levels Line.overshooting 0) _ _).
  vm_compute. reflexivity.
Defined.

Lemma first_iteration_moves_guess_witness :
  exists s1 : @Loop Line.collaborators,
    iteration (C := Line.collaborators) (cfg (Line.tracker Line.one_level))
      (Line.input Line.shifted 0)
      (enter_level 0 (start (Line.tracker Line.one_level) Line.shifted (Line.guess 0.5)))
      = Done s1 /\
    accept s1 = true /\
    value (estimate s1) = 0.5%float /\
    value (initial s1) = 0%float.
Proof.
  eassert (Hfirst : iteration (C := Line.collaborators) (cfg (Line.tracker Line.one_level))
                      (Line.input Line.shifted 0)
                      (enter_level 0
                         (start (Line.tracker Line.one_level) Line.shifted (Line.guess 0.5)))
                    = Done _)
    by (vm_compute; reflexivity).
  eexists. split; [exact Hfirst|]. split; [reflexivity|].
  exact (proj1 (first_iteration_moves_guess (C := Line.collaborators)
           (Line.tracker Line.one_level) Line.shifted (Line.guess 0.5)
           (Line.input Line.shifted 0) 0 _ eq_refl eq_refl eq_refl Hfirst) eq_refl).
Defined.

Lemma result_from_last_accepted_witness :
  exists (r : @Result Line.collaborators) (d' : DenseTracker) (l : LevelStats),
    match_ (C := Line.collaborators) (Line.tracker Line.two_levels) Line.overshooting
      Line.pyramid (Line.guess 0) = Done (true, r, d') /\
    back (Levels r) = Done l /\
    filter accepted (Iterations l) <> [] /\
    exists (earlier : list IterationStats) (it : IterationStats)
           (A : @Matrix6d Line.collaborators),
      filter accepted (Iterations l) = earlier ++ [it] /\
      EstimateInformation it = Some A /\
      Information r
        = Some (Matrix6d_scale information_scale (Matrix6d_scale information_scale A)) /\
      LogLikelihood r = (TDistributionLogLikelihood it + PriorLogLikelihood it)%float.
Proof.
  eexists _, _, _. split; [vm_compute; reflexivity|].
  split; [vm_compute; reflexivity|].
  split; [vm_compute; discriminate|].
  match goal with
  | |- exists earlier it A, filter accepted (Iterations ?l) = _ /\ _ =>
      eassert (H : match_ (C := Line.collaborators) (Line.tracker Line.two_levels)
                     Line.overshooting Line.pyramid (Line.guess 0) = Done (true, _, _))
        by (vm_compute; reflexivity);
      refine (result_from_last_accepted _ _ _ _ _ _ _ l H _ _ _)
  end.
  - simpl. lia.
  - vm_compute. reflexivity.
  - vm_compute. discriminate.
Defined.

Lemma overloads_ignore_what_they_overwrite_witness :
  LastLevel (cfg (Line.tracker (mkConfig 0 0 100 0x1p-20 0 false)))
    <= FirstLevel (cfg (Line.tracker (mkConfig 0 0 100 0x1p-20 0 false))) /\
  match_selection_transformation (C := Line.collaborators) (Some 1%float) 9
    (Line.tracker (mkConfig 0 0 100 0x1p-20 0 false)) Line.shifted Line.pyramid 0.5%float
  = match_selection_transformation (C := Line.collaborators) None 0
      (Line.tracker (mkConfig 0 0 100 0x1p-20 0 false)) Line.shifted Line.pyramid 0%float.
Proof.
  assert (Hrange : LastLevel (cfg (Line.tracker (mkConfig 0 0 100 0x1p-20 0 false)))
                   <= FirstLevel (cfg (Line.tracker (mkConfig 0 0 100 0x1p-20 0 false))))
    by (simpl; lia).
  split; [exact Hrange|].
  refine (proj1 (overloads_ignore_what_they_overwrite (C := Line.collaborators)
            (fun sel _ => sel) (Line.tracker (mkConfig 0 0 100 0x1p-20 0 false))
            Line.shifted Line.pyramid Line.pyramid 0%float 0.5%float None (Some 1%float)
            0 9 Hrange _)).
  simpl. discriminate.
Defined.
